(** * Options.cpp: validation of the IDAKLU solver options

    A shallow embedding of [Options::Options(py::dict)] from
    [pybamm/solvers/c_solvers/idaklu/Options.cpp], and the properties of
    its decision table (jacobian kind, linear solver, preconditioner).

    The constructor runs in two phases, as in the source:
    - the member initialiser list (lines 9-38) reads 27 entries of the
      dictionary and casts each one to its C++ type;
    - the body (lines 39-143) derives three flags, rejects the invalid
      combinations with [std::domain_error] and may reset the
      preconditioner. *)

From Stdlib Require Import ZArith Bool List Ascii String.
From Stdlib Require Import Floats.SpecFloat.
From stdpp Require Import base strings gmap.

Open Scope string_scope.

(** ** What the file takes from outside the repository

    [py::dict], [py::object] and [cast<T>()] are pybind11's,
    [sunbooleantype] is SUNDIALS'. None of them is defined in this
    repository: the object type, the carriers of [double] and
    [sunbooleantype], and the five casts the initialiser list uses are the
    fields of an interface. A cast that pybind11 refuses is [None]. *)
Class Extern := {
  py_object : Type;
  double : Type;
  sunbooleantype : Type;
  cast_bool : py_object -> option bool;
  cast_int : py_object -> option Z;
  cast_double : py_object -> option double;
  cast_string : py_object -> option string;
  cast_sunbooleantype : py_object -> option sunbooleantype
}.

(** ** Exceptions and the error monad *)

(** The exceptions that can leave the constructor: [options[key]] on a
    missing key (Python's KeyError, carried by pybind11's
    [error_already_set]), a refused cast ([py::cast_error]) and the
    [std::domain_error] of the body. The first two keep the key they were
    raised for, to tell the 27 reads apart. A domain error keeps
    [what_arg], the [std::string] that the [throw] statement builds and
    passes to the exception; the message that the exception shows is
    [what], defined below. *)
Inductive exception : Type :=
  | error_already_set (key : string)
  | cast_error (key : string)
  | domain_error (what_arg : string).

Inductive result (A : Type) : Type :=
  | Ok (a : A)
  | Throw (e : exception).

Arguments Ok {A} a.
Arguments Throw {A} e.

Definition bind {A B : Type} (c : result A) (k : A -> result B) : result B :=
  match c with
  | Ok a => k a
  | Throw e => Throw e
  end.

Declare Scope result_scope.
Delimit Scope result_scope with result.
Notation "x <- c ;; k" := (bind c (fun x => k))
  (at level 100, c at next level, right associativity) : result_scope.
Open Scope result_scope.

Definition succeeds {A : Type} (c : result A) : Prop := exists a, c = Ok a.
Definition fails {A : Type} (c : result A) : Prop := exists e, c = Throw e.

(** ** Strings of the messages *)

(** The double quote character (code 34), escaped in the C++ literals. *)
Definition dquote : string := String "034"%char EmptyString.

(** [quoted s] is [s] between double quotes. *)
Definition quoted (s : string) : string := dquote +:+ s +:+ dquote.

(** [starts_with v msg]: the string [msg] begins with [v]. *)
Fixpoint starts_with (v msg : string) : bool :=
  match v, msg with
  | EmptyString, _ => true
  | String _ _, EmptyString => false
  | String a v', String b msg' => Ascii.eqb a b && starts_with v' msg'
  end.

(** [infix_of v msg]: the string [v] occurs in [msg]. *)
Fixpoint infix_of (v msg : string) : bool :=
  starts_with v msg ||
  match msg with
  | EmptyString => false
  | String _ rest => infix_of v rest
  end.

(** A message names a value when the value occurs in it. *)
Definition names (msg v : string) : Prop :=
  exists pre post, msg = pre +:+ v +:+ post.

(** The NUL character. A [std::string] may hold it anywhere: pybind11
    casts a Python string to a [std::string] of the same characters. *)
Definition nul : ascii := "000"%char.

(** [has_nul s]: the string holds a NUL character. *)
Fixpoint has_nul (s : string) : bool :=
  match s with
  | EmptyString => false
  | String a rest => Ascii.eqb a nul || has_nul rest
  end.

(** [c_str s]: the string read as a C string, which ends before the first
    NUL character. *)
Fixpoint c_str (s : string) : string :=
  match s with
  | EmptyString => EmptyString
  | String a rest => if Ascii.eqb a nul then EmptyString
                     else String a (c_str rest)
  end.

(** [e.what()]: the message of a [std::domain_error] is a C string, the
    string it was built with up to the first NUL character. The messages
    of pybind11's exceptions are not modelled. *)
Definition what (e : exception) : option string :=
  match e with
  | domain_error what_arg => Some (c_str what_arg)
  | error_already_set _ | cast_error _ => None
  end.

(** ** The configuration record *)

Section Options.
Context {E : Extern}.

(** The fields of [class Options], in the order of the initialiser list,
    followed by the three flags that the body assigns. *)
Record Options : Type := mkOptions {
  print_stats : bool;
  jacobian : string;
  preconditioner : string;
  precon_half_bandwidth : Z;
  precon_half_bandwidth_keep : Z;
  num_threads : Z;
  max_order_bdf : Z;
  max_num_steps : Z;
  dt_init : double;
  dt_max : double;
  max_error_test_failures : Z;
  max_nonlinear_iterations : Z;
  max_convergence_failures : Z;
  nonlinear_convergence_coefficient : double;
  nonlinear_convergence_coefficient_ic : double;
  suppress_algebraic_error : sunbooleantype;
  max_num_steps_ic : Z;
  max_number_jacobians_ic : Z;
  max_number_iterations_ic : Z;
  max_linesearch_backtracks_ic : Z;
  linesearch_off_ic : sunbooleantype;
  calc_ic : bool;
  linear_solver : string;
  linsol_max_iterations : Z;
  linear_solution_scaling : sunbooleantype;
  epsilon_linear_tolerance : double;
  increment_factor : double;
  using_sparse_matrix : bool;
  using_banded_matrix : bool;
  using_iterative_solver : bool
}.

(** Assignments to the four fields that the body writes. *)
Definition set_flags (sp bd it : bool) (o : Options) : Options :=
  mkOptions
    (print_stats o) (jacobian o) (preconditioner o)
    (precon_half_bandwidth o) (precon_half_bandwidth_keep o) (num_threads o)
    (max_order_bdf o) (max_num_steps o) (dt_init o) (dt_max o)
    (max_error_test_failures o) (max_nonlinear_iterations o)
    (max_convergence_failures o) (nonlinear_convergence_coefficient o)
    (nonlinear_convergence_coefficient_ic o) (suppress_algebraic_error o)
    (max_num_steps_ic o) (max_number_jacobians_ic o)
    (max_number_iterations_ic o) (max_linesearch_backtracks_ic o)
    (linesearch_off_ic o) (calc_ic o) (linear_solver o)
    (linsol_max_iterations o) (linear_solution_scaling o)
    (epsilon_linear_tolerance o) (increment_factor o)
    sp bd it.

Definition set_using_sparse_matrix (b : bool) (o : Options) : Options :=
  set_flags b (using_banded_matrix o) (using_iterative_solver o) o.

Definition set_using_banded_matrix (b : bool) (o : Options) : Options :=
  set_flags (using_sparse_matrix o) b (using_iterative_solver o) o.

Definition set_using_iterative_solver (b : bool) (o : Options) : Options :=
  set_flags (using_sparse_matrix o) (using_banded_matrix o) b o.

Definition set_preconditioner (p : string) (o : Options) : Options :=
  mkOptions
    (print_stats o) (jacobian o) p
    (precon_half_bandwidth o) (precon_half_bandwidth_keep o) (num_threads o)
    (max_order_bdf o) (max_num_steps o) (dt_init o) (dt_max o)
    (max_error_test_failures o) (max_nonlinear_iterations o)
    (max_convergence_failures o) (nonlinear_convergence_coefficient o)
    (nonlinear_convergence_coefficient_ic o) (suppress_algebraic_error o)
    (max_num_steps_ic o) (max_number_jacobians_ic o)
    (max_number_iterations_ic o) (max_linesearch_backtracks_ic o)
    (linesearch_off_ic o) (calc_ic o) (linear_solver o)
    (linsol_max_iterations o) (linear_solution_scaling o)
    (epsilon_linear_tolerance o) (increment_factor o)
    (using_sparse_matrix o) (using_banded_matrix o)
    (using_iterative_solver o).

(** ** Phase 1: the member initialiser list (lines 9-38) *)

(** [options[key].cast<T>()]: the lookup throws on a missing key, the
    cast throws when pybind11 cannot convert the object. *)
Definition get {T : Type} (cast : py_object -> option T)
    (options : gmap string py_object) (key : string) : result T :=
  match options !! key with
  | None => Throw (error_already_set key)
  | Some v =>
      match cast v with
      | Some x => Ok x
      | None => Throw (cast_error key)
      end
  end.

(** The initialiser list. The three flags are not initialised by it: the
    body assigns each of them (lines 41, 42 and 65) before anything reads
    it, so the record starts with the values [sp0], [bd0], [it0] that the
    memory happens to hold.

    C++ initialises the members in the order of their declaration in
    [Options.hpp]; the order of the list is taken here. The order decides
    only which exception is thrown when several reads fail. The [int]
    fields are integers: the constructor does no arithmetic on them, and
    keeping them in the range of [int] is the cast's matter. *)
Definition init_members (sp0 bd0 it0 : bool)
    (options : gmap string py_object) : result Options :=
  v_print_stats <- get cast_bool options "print_stats" ;;
  v_jacobian <- get cast_string options "jacobian" ;;
  v_preconditioner <- get cast_string options "preconditioner" ;;
  v_precon_half_bandwidth <- get cast_int options "precon_half_bandwidth" ;;
  v_precon_half_bandwidth_keep <-
    get cast_int options "precon_half_bandwidth_keep" ;;
  v_num_threads <- get cast_int options "num_threads" ;;
  v_max_order_bdf <- get cast_int options "max_order_bdf" ;;
  v_max_num_steps <- get cast_int options "max_num_steps" ;;
  v_dt_init <- get cast_double options "dt_init" ;;
  v_dt_max <- get cast_double options "dt_max" ;;
  v_max_error_test_failures <-
    get cast_int options "max_error_test_failures" ;;
  v_max_nonlinear_iterations <-
    get cast_int options "max_nonlinear_iterations" ;;
  v_max_convergence_failures <-
    get cast_int options "max_convergence_failures" ;;
  v_nonlinear_convergence_coefficient <-
    get cast_double options "nonlinear_convergence_coefficient" ;;
  v_nonlinear_convergence_coefficient_ic <-
    get cast_double options "nonlinear_convergence_coefficient_ic" ;;
  v_suppress_algebraic_error <-
    get cast_sunbooleantype options "suppress_algebraic_error" ;;
  v_max_num_steps_ic <- get cast_int options "max_num_steps_ic" ;;
  v_max_number_jacobians_ic <-
    get cast_int options "max_number_jacobians_ic" ;;
  v_max_number_iterations_ic <-
    get cast_int options "max_number_iterations_ic" ;;
  v_max_linesearch_backtracks_ic <-
    get cast_int options "max_linesearch_backtracks_ic" ;;
  v_linesearch_off_ic <- get cast_sunbooleantype options "linesearch_off_ic" ;;
  v_calc_ic <- get cast_bool options "calc_ic" ;;
  v_linear_solver <- get cast_string options "linear_solver" ;;
  v_linsol_max_iterations <- get cast_int options "linsol_max_iterations" ;;
  v_linear_solution_scaling <-
    get cast_sunbooleantype options "linear_solution_scaling" ;;
  v_epsilon_linear_tolerance <-
    get cast_double options "epsilon_linear_tolerance" ;;
  v_increment_factor <- get cast_double options "increment_factor" ;;
  Ok (mkOptions
        v_print_stats v_jacobian v_preconditioner
        v_precon_half_bandwidth v_precon_half_bandwidth_keep v_num_threads
        v_max_order_bdf v_max_num_steps v_dt_init v_dt_max
        v_max_error_test_failures v_max_nonlinear_iterations
        v_max_convergence_failures v_nonlinear_convergence_coefficient
        v_nonlinear_convergence_coefficient_ic v_suppress_algebraic_error
        v_max_num_steps_ic v_max_number_jacobians_ic
        v_max_number_iterations_ic v_max_linesearch_backtracks_ic
        v_linesearch_off_ic v_calc_ic v_linear_solver
        v_linsol_max_iterations v_linear_solution_scaling
        v_epsilon_linear_tolerance v_increment_factor
        sp0 bd0 it0).

(** ** Phase 2: the body (lines 39-143) *)

(** The messages of the seven [throw] statements. *)
Definition msg_unknown_jacobian (j : string) : string :=
  "Unknown jacobian type " +:+ quoted j +:+
  ". Should be one of " +:+ quoted "sparse" +:+ ", " +:+ quoted "banded" +:+
  ", " +:+ quoted "dense" +:+ ", " +:+ quoted "matrix-free" +:+ " or " +:+
  quoted "none" +:+ ".".

Definition msg_pair (head j l tail : string) : string :=
  head +:+ "jacobian = " +:+ quoted j +:+ " linear solver = " +:+
  quoted l +:+ tail.

Definition msg_banded (j l : string) : string :=
  msg_pair "Unknown linear solver or incompatible options: " j l
    ". For a banded jacobian please use the SUNLinSol_Band linear solver".

Definition msg_sparse (j l : string) : string :=
  msg_pair "Unknown linear solver or incompatible options: " j l
    ". For a sparse jacobian please use the SUNLinSol_KLU linear solver".

Definition msg_matrix_free (j l : string) : string :=
  msg_pair "Unknown linear solver or incompatible options. " j l
    (". For a matrix-free jacobian please use one of the iterative " +:+
     "linear solvers: " +:+ quoted "SUNLinSol_SPBCGS" +:+ ", " +:+
     quoted "SUNLinSol_SPFGMR" +:+ ", " +:+ quoted "SUNLinSol_SPGMR" +:+
     ", or " +:+ quoted "SUNLinSol_SPTFQMR" +:+ ".").

Definition msg_none (j l : string) : string :=
  msg_pair "Unknown linear solver or incompatible options: " j l
    ". For no jacobian please use the SUNLinSol_Dense solver".

Definition msg_other (j l : string) : string :=
  msg_pair "Unknown linear solver or incompatible options. " j l EmptyString.

Definition msg_unknown_preconditioner (p : string) : string :=
  "Unknown preconditioner " +:+ quoted p +:+ ", use one of " +:+
  quoted "BBDP" +:+ " or " +:+ quoted "none".

(** Lines 41-63: the matrix flags, and the check of the jacobian kind. *)
Definition check_jacobian (o : Options) : result Options :=
  let o := set_using_sparse_matrix true o in
  let o := set_using_banded_matrix false o in
  if jacobian o =? "sparse" then Ok o
  else if jacobian o =? "banded" then
    let o := set_using_banded_matrix true o in
    Ok (set_using_sparse_matrix false o)
  else if (jacobian o =? "dense") || (jacobian o =? "none") then
    Ok (set_using_sparse_matrix false o)
  else if jacobian o =? "matrix-free" then Ok o
  else Throw (domain_error (msg_unknown_jacobian (jacobian o))).

(** Lines 65-127: the solver flag, and the check of the pair. *)
Definition check_linear_solver (o : Options) : result Options :=
  let o := set_using_iterative_solver false o in
  let j := jacobian o in
  let l := linear_solver o in
  if (l =? "SUNLinSol_Dense") && ((j =? "dense") || (j =? "none")) then Ok o
  else if (l =? "SUNLinSol_KLU") && (j =? "sparse") then Ok o
  else if (l =? "SUNLinSol_cuSolverSp_batchQR") && (j =? "sparse") then Ok o
  else if (l =? "SUNLinSol_Band") && (j =? "banded") then Ok o
  else if j =? "banded" then Throw (domain_error (msg_banded j l))
  else if ((l =? "SUNLinSol_SPBCGS") || (l =? "SUNLinSol_SPFGMR") ||
           (l =? "SUNLinSol_SPGMR") || (l =? "SUNLinSol_SPTFQMR")) &&
          ((j =? "sparse") || (j =? "matrix-free")) then
    Ok (set_using_iterative_solver true o)
  else if j =? "sparse" then Throw (domain_error (msg_sparse j l))
  else if j =? "matrix-free" then
    Throw (domain_error (msg_matrix_free j l))
  else if j =? "none" then Throw (domain_error (msg_none j l))
  else Throw (domain_error (msg_other j l)).

(** Lines 129-142: the check of the preconditioner, or its reset. *)
Definition check_preconditioner (o : Options) : result Options :=
  if using_iterative_solver o then
    if negb (preconditioner o =? "none") && negb (preconditioner o =? "BBDP")
    then Throw (domain_error (msg_unknown_preconditioner (preconditioner o)))
    else Ok o
  else Ok (set_preconditioner "none" o).

Definition Options_body (o : Options) : result Options :=
  o <- check_jacobian o ;;
  o <- check_linear_solver o ;;
  check_preconditioner o.

(** [Options::Options(py::dict options)]. *)
Definition Options_ctor (sp0 bd0 it0 : bool)
    (options : gmap string py_object) : result Options :=
  o <- init_members sp0 bd0 it0 options ;;
  Options_body o.

End Options.

Arguments Options : clear implicits.

(** ** The decision table, as the specification words it *)

(** The accepted jacobian kinds. *)
Definition accepted_jacobians : list string :=
  ["sparse"; "banded"; "dense"; "none"; "matrix-free"].

(** The four iterative (Krylov) linear solvers. *)
Definition krylov_solvers : list string :=
  ["SUNLinSol_SPBCGS"; "SUNLinSol_SPFGMR"; "SUNLinSol_SPGMR";
   "SUNLinSol_SPTFQMR"].

(** The compatibility matrix: the pairs (jacobian, linear solver) that
    the specification lists as valid. *)
Definition compatibility_matrix : list (string * string) :=
  [("dense", "SUNLinSol_Dense"); ("none", "SUNLinSol_Dense");
   ("sparse", "SUNLinSol_KLU"); ("sparse", "SUNLinSol_cuSolverSp_batchQR");
   ("banded", "SUNLinSol_Band")] ++
  list_prod ["sparse"; "matrix-free"] krylov_solvers.

Definition compatible (j l : string) : Prop := (j, l) ∈ compatibility_matrix.

Definition is_krylov (l : string) : Prop := l ∈ krylov_solvers.

Definition accepted_jacobian (j : string) : Prop := j ∈ accepted_jacobians.

(** The preconditioner is "none" or the block-diagonal variant "BBDP". *)
Definition valid_preconditioner (p : string) : Prop :=
  p = "none" \/ p = "BBDP".

(** The four predicates are decidable, by enumeration. *)
#[global] Instance compatible_dec (j l : string) : Decision (compatible j l).
Proof. unfold compatible. apply _. Defined.

#[global] Instance is_krylov_dec (l : string) : Decision (is_krylov l).
Proof. unfold is_krylov. apply _. Defined.

#[global] Instance accepted_jacobian_dec (j : string) :
  Decision (accepted_jacobian j).
Proof. unfold accepted_jacobian. apply _. Defined.

#[global] Instance valid_preconditioner_dec (p : string) :
  Decision (valid_preconditioner p).
Proof. unfold valid_preconditioner. apply _. Defined.

(** The flags and the message that the body derives from the kinds. *)
Definition sparse_flag (j : string) : bool :=
  (j =? "sparse") || (j =? "matrix-free").

Definition banded_flag (j : string) : bool := j =? "banded".

Section Table.
Context {E : Extern}.

(** The message of lines 78-127 for an accepted jacobian kind: the
    branch is chosen by the jacobian, "dense" falls to the last [else]. *)
Definition msg_incompatible (j l : string) : string :=
  if j =? "banded" then msg_banded j l
  else if j =? "sparse" then msg_sparse j l
  else if j =? "matrix-free" then msg_matrix_free j l
  else if j =? "none" then msg_none j l
  else msg_other j l.

(** The five rows of the decision table, as a relation between the
    initialised record and the outcome of the body. *)
Inductive body_outcome (o : Options E) : result (Options E) -> Prop :=
  | unknown_jacobian :
      ~ accepted_jacobian (jacobian o) ->
      body_outcome o
        (Throw (domain_error (msg_unknown_jacobian (jacobian o))))
  | incompatible :
      accepted_jacobian (jacobian o) ->
      ~ compatible (jacobian o) (linear_solver o) ->
      body_outcome o
        (Throw (domain_error
                  (msg_incompatible (jacobian o) (linear_solver o))))
  | unknown_preconditioner :
      compatible (jacobian o) (linear_solver o) ->
      is_krylov (linear_solver o) ->
      ~ valid_preconditioner (preconditioner o) ->
      body_outcome o
        (Throw (domain_error
                  (msg_unknown_preconditioner (preconditioner o))))
  | iterative_ok :
      compatible (jacobian o) (linear_solver o) ->
      is_krylov (linear_solver o) ->
      valid_preconditioner (preconditioner o) ->
      body_outcome o
        (Ok (set_flags (sparse_flag (jacobian o)) (banded_flag (jacobian o))
               true o))
  | direct_ok :
      compatible (jacobian o) (linear_solver o) ->
      ~ is_krylov (linear_solver o) ->
      body_outcome o
        (Ok (set_preconditioner "none"
               (set_flags (sparse_flag (jacobian o))
                  (banded_flag (jacobian o)) false o))).

(** The record holds, for each of the three kinds, what the dictionary
    supplies under its key. *)
Definition kinds_as_supplied (options : gmap string py_object)
    (o : Options E) : Prop :=
  get cast_string options "jacobian" = Ok (jacobian o) /\
  get cast_string options "preconditioner" = Ok (preconditioner o) /\
  get cast_string options "linear_solver" = Ok (linear_solver o).

(** The same for each of the 24 numeric and boolean options. *)
Definition numeric_as_supplied (options : gmap string py_object)
    (o : Options E) : Prop :=
  get cast_bool options "print_stats" = Ok (print_stats o) /\
  get cast_int options "precon_half_bandwidth" =
    Ok (precon_half_bandwidth o) /\
  get cast_int options "precon_half_bandwidth_keep" =
    Ok (precon_half_bandwidth_keep o) /\
  get cast_int options "num_threads" = Ok (num_threads o) /\
  get cast_int options "max_order_bdf" = Ok (max_order_bdf o) /\
  get cast_int options "max_num_steps" = Ok (max_num_steps o) /\
  get cast_double options "dt_init" = Ok (dt_init o) /\
  get cast_double options "dt_max" = Ok (dt_max o) /\
  get cast_int options "max_error_test_failures" =
    Ok (max_error_test_failures o) /\
  get cast_int options "max_nonlinear_iterations" =
    Ok (max_nonlinear_iterations o) /\
  get cast_int options "max_convergence_failures" =
    Ok (max_convergence_failures o) /\
  get cast_double options "nonlinear_convergence_coefficient" =
    Ok (nonlinear_convergence_coefficient o) /\
  get cast_double options "nonlinear_convergence_coefficient_ic" =
    Ok (nonlinear_convergence_coefficient_ic o) /\
  get cast_sunbooleantype options "suppress_algebraic_error" =
    Ok (suppress_algebraic_error o) /\
  get cast_int options "max_num_steps_ic" = Ok (max_num_steps_ic o) /\
  get cast_int options "max_number_jacobians_ic" =
    Ok (max_number_jacobians_ic o) /\
  get cast_int options "max_number_iterations_ic" =
    Ok (max_number_iterations_ic o) /\
  get cast_int options "max_linesearch_backtracks_ic" =
    Ok (max_linesearch_backtracks_ic o) /\
  get cast_sunbooleantype options "linesearch_off_ic" =
    Ok (linesearch_off_ic o) /\
  get cast_bool options "calc_ic" = Ok (calc_ic o) /\
  get cast_int options "linsol_max_iterations" =
    Ok (linsol_max_iterations o) /\
  get cast_sunbooleantype options "linear_solution_scaling" =
    Ok (linear_solution_scaling o) /\
  get cast_double options "epsilon_linear_tolerance" =
    Ok (epsilon_linear_tolerance o) /\
  get cast_double options "increment_factor" = Ok (increment_factor o).

(** Two dictionaries with the same entries for the three kinds. *)
Definition same_kinds (d d' : gmap string py_object) : Prop :=
  d' !! "jacobian" = d !! "jacobian" /\
  d' !! "preconditioner" = d !! "preconditioner" /\
  d' !! "linear_solver" = d !! "linear_solver".

End Table.

(** ** A concrete instance of the interface, for the examples

    Python values as a tagged union, and casts that accept the matching
    Python type only: [cast<int>] refuses an integer outside the range of a
    32-bit [int]. [double] is an IEEE value in the Standard Library's
    [spec_float], [sunbooleantype] is an [int]. *)
Inductive py_value : Type :=
  | PyNone
  | PyBool (b : bool)
  | PyInt (z : Z)
  | PyFloat (f : spec_float)
  | PyStr (s : string).

Definition fits_int (z : Z) : bool :=
  ((- 2 ^ 31 <=? z) && (z <? 2 ^ 31))%Z.

Definition py_cast_bool (v : py_value) : option bool :=
  match v with PyBool b => Some b | _ => None end.

Definition py_cast_int (v : py_value) : option Z :=
  match v with
  | PyInt z => if fits_int z then Some z else None
  | _ => None
  end.

Definition py_cast_double (v : py_value) : option spec_float :=
  match v with PyFloat f => Some f | _ => None end.

Definition py_cast_string (v : py_value) : option string :=
  match v with PyStr s => Some s | _ => None end.

Definition python : Extern :=
  {| py_object := py_value;
     double := spec_float;
     sunbooleantype := Z;
     cast_bool := py_cast_bool;
     cast_int := py_cast_int;
     cast_double := py_cast_double;
     cast_string := py_cast_string;
     cast_sunbooleantype := py_cast_int |}.

(** Three doubles are enough for the examples: 0.0, 1.0 and -1.0. *)
Definition zero : spec_float := S754_zero false.
Definition one : spec_float := S754_finite false 4503599627370496 (-52).
Definition minus_one : spec_float := S754_finite true 4503599627370496 (-52).

(** A dictionary with every option, for a sparse jacobian and KLU. *)
Definition sample_options : gmap string py_value :=
  list_to_map
    [("print_stats", PyBool false);
     ("jacobian", PyStr "sparse");
     ("preconditioner", PyStr "BBDP");
     ("precon_half_bandwidth", PyInt 5);
     ("precon_half_bandwidth_keep", PyInt 5);
     ("num_threads", PyInt 1);
     ("max_order_bdf", PyInt 5);
     ("max_num_steps", PyInt 100000);
     ("dt_init", PyFloat zero);
     ("dt_max", PyFloat zero);
     ("max_error_test_failures", PyInt 10);
     ("max_nonlinear_iterations", PyInt 40);
     ("max_convergence_failures", PyInt 100);
     ("nonlinear_convergence_coefficient", PyFloat one);
     ("nonlinear_convergence_coefficient_ic", PyFloat one);
     ("suppress_algebraic_error", PyInt 0);
     ("max_num_steps_ic", PyInt 5);
     ("max_number_jacobians_ic", PyInt 4);
     ("max_number_iterations_ic", PyInt 10);
     ("max_linesearch_backtracks_ic", PyInt 100);
     ("linesearch_off_ic", PyInt 0);
     ("calc_ic", PyBool true);
     ("linear_solver", PyStr "SUNLinSol_KLU");
     ("linsol_max_iterations", PyInt 5);
     ("linear_solution_scaling", PyInt 1);
     ("epsilon_linear_tolerance", PyFloat one);
     ("increment_factor", PyFloat one)].

(** The same dictionary with other kinds. *)
Definition with_kinds (j l p : string) (d : gmap string py_value) :
    gmap string py_value :=
  <["jacobian" := PyStr j]>
    (<["linear_solver" := PyStr l]> (<["preconditioner" := PyStr p]> d)).

(** What the initialiser list makes of [with_kinds j l p sample_options]. *)
Definition sample_members (sp0 bd0 it0 : bool) (j l p : string) :
    Options python :=
  mkOptions (E := python)
    false j p 5%Z 5%Z 1%Z 5%Z 100000%Z zero zero 10%Z 40%Z 100%Z
    one one 0%Z 5%Z 4%Z 10%Z 100%Z 0%Z true l 5%Z 1%Z one one
    sp0 bd0 it0.

(** A dictionary with a negative step limit and a negative largest step,
    and the record that the constructor makes of it. *)
Definition negative_options : gmap string py_value :=
  <["max_num_steps" := PyInt (-5)]>
    (<["dt_max" := PyFloat minus_one]> sample_options).

Definition negative_result : Options python :=
  mkOptions (E := python)
    false "sparse" "none" 5%Z 5%Z 1%Z 5%Z (-5)%Z zero minus_one 10%Z 40%Z
    100%Z one one 0%Z 5%Z 4%Z 10%Z 100%Z 0%Z true "SUNLinSol_KLU" 5%Z 1%Z
    one one true false false.

(** A linear solver name with an embedded NUL character: a, b, NUL, c. *)
Definition solver_with_nul : string :=
  String "a" (String "b" (String nul (String "c" EmptyString))).

(** ** The options that the initialiser list reads *)

(** The C++ types of the casts of lines 9-38. *)
Inductive ctype : Type :=
  | c_bool
  | c_int
  | c_double
  | c_string
  | c_sunbooleantype.

(** The 27 reads of the initialiser list: the key and the type of the
    cast, in the order of the list. *)
Definition option_table : list (string * ctype) :=
  [("print_stats", c_bool);
   ("jacobian", c_string);
   ("preconditioner", c_string);
   ("precon_half_bandwidth", c_int);
   ("precon_half_bandwidth_keep", c_int);
   ("num_threads", c_int);
   ("max_order_bdf", c_int);
   ("max_num_steps", c_int);
   ("dt_init", c_double);
   ("dt_max", c_double);
   ("max_error_test_failures", c_int);
   ("max_nonlinear_iterations", c_int);
   ("max_convergence_failures", c_int);
   ("nonlinear_convergence_coefficient", c_double);
   ("nonlinear_convergence_coefficient_ic", c_double);
   ("suppress_algebraic_error", c_sunbooleantype);
   ("max_num_steps_ic", c_int);
   ("max_number_jacobians_ic", c_int);
   ("max_number_iterations_ic", c_int);
   ("max_linesearch_backtracks_ic", c_int);
   ("linesearch_off_ic", c_sunbooleantype);
   ("calc_ic", c_bool);
   ("linear_solver", c_string);
   ("linsol_max_iterations", c_int);
   ("linear_solution_scaling", c_sunbooleantype);
   ("epsilon_linear_tolerance", c_double);
   ("increment_factor", c_double)].

Definition option_keys : list string := map fst option_table.

Section Readable.
Context {E : Extern}.

(** pybind11 accepts the cast of [v] to the type [t]. *)
Definition castable (t : ctype) (v : py_object) : bool :=
  match t with
  | c_bool => bool_decide (is_Some (cast_bool v))
  | c_int => bool_decide (is_Some (cast_int v))
  | c_double => bool_decide (is_Some (cast_double v))
  | c_string => bool_decide (is_Some (cast_string v))
  | c_sunbooleantype => bool_decide (is_Some (cast_sunbooleantype v))
  end.

(** The dictionary has the key, with an object that casts to the type. *)
Definition readable (options : gmap string py_object)
    (entry : string * ctype) : bool :=
  match options !! fst entry with
  | Some v => castable (snd entry) v
  | None => false
  end.

End Readable.

(** * Properties *)

(** ** Occurrence in a message *)

Lemma append_empty (b : string) : EmptyString +:+ b = b.
Proof. reflexivity. Qed.

Lemma append_cons (x : ascii) (a b : string) :
  String x a +:+ b = String x (a +:+ b).
Proof. reflexivity. Qed.

Lemma append_assoc (a b c : string) : (a +:+ b) +:+ c = a +:+ b +:+ c.
Proof.
  induction a as [|x a IH]; [reflexivity|].
  rewrite !append_cons. f_equal. exact IH.
Qed.

Lemma starts_with_append (v post : string) :
  starts_with v (v +:+ post) = true.
Proof.
  induction v as [|a v IH]; [reflexivity|].
  rewrite append_cons. simpl. rewrite Ascii.eqb_refl. exact IH.
Qed.

Lemma starts_with_inv (v msg : string) :
  starts_with v msg = true -> exists post, msg = v +:+ post.
Proof.
  revert msg; induction v as [|a v IH]; intros msg H; simpl in *.
  - exists msg; reflexivity.
  - destruct msg as [|b msg]; [discriminate|].
    apply andb_true_iff in H as [Hab H].
    apply Ascii.eqb_eq in Hab as ->.
    destruct (IH _ H) as [post ->]. exists post; reflexivity.
Qed.

Lemma infix_of_names (v msg : string) : infix_of v msg = true <-> names msg v.
Proof.
  split.
  - induction msg as [|b msg IH]; simpl; intros H.
    + rewrite orb_false_r in H. destruct (starts_with_inv _ _ H) as [post ->].
      exists EmptyString, post; reflexivity.
    + apply orb_true_iff in H as [H|H].
      * destruct (starts_with_inv _ _ H) as [post ->].
        exists EmptyString, post; reflexivity.
      * destruct (IH H) as (pre & post & ->).
        exists (String b pre), post; reflexivity.
  - intros (pre & post & ->). induction pre as [|b pre IH].
    + rewrite append_empty.
      destruct (v +:+ post) eqn:Hv; simpl;
        rewrite <- Hv, starts_with_append; reflexivity.
    + rewrite append_cons. simpl. rewrite IH. apply orb_true_r.
Qed.

Lemma names_msg_pair_jacobian (head j l tail : string) :
  names (msg_pair head j l tail) j.
Proof.
  exists (head +:+ "jacobian = " +:+ dquote),
    (dquote +:+ " linear solver = " +:+ quoted l +:+ tail).
  unfold msg_pair, quoted. rewrite !append_assoc. reflexivity.
Qed.

Lemma names_msg_pair_linear_solver (head j l tail : string) :
  names (msg_pair head j l tail) l.
Proof.
  exists (head +:+ "jacobian = " +:+ quoted j +:+ " linear solver = " +:+
          dquote), (dquote +:+ tail).
  unfold msg_pair, quoted. rewrite !append_assoc. reflexivity.
Qed.

Lemma names_msg_unknown_jacobian (j : string) :
  names (msg_unknown_jacobian j) j.
Proof.
  unfold msg_unknown_jacobian, quoted.
  eexists ("Unknown jacobian type " +:+ dquote), _.
  rewrite !append_assoc. reflexivity.
Qed.

Lemma names_msg_unknown_preconditioner (p : string) :
  names (msg_unknown_preconditioner p) p.
Proof.
  unfold msg_unknown_preconditioner, quoted.
  eexists ("Unknown preconditioner " +:+ dquote), _.
  rewrite !append_assoc. reflexivity.
Qed.

(** ** Pieces of a message *)

Lemma append_empty_r (a : string) : a +:+ EmptyString = a.
Proof.
  induction a as [|x a IH]; [reflexivity|].
  rewrite append_cons, IH. reflexivity.
Qed.

Lemma names_here (v post : string) : names (v +:+ post) v.
Proof. exists EmptyString, post. reflexivity. Qed.

Lemma names_end (v : string) : names v v.
Proof.
  exists EmptyString, EmptyString.
  rewrite append_empty, append_empty_r. reflexivity.
Qed.

Lemma names_skip (a rest v : string) : names rest v -> names (a +:+ rest) v.
Proof.
  intros (pre & post & ->). exists (a +:+ pre), post.
  rewrite append_assoc. reflexivity.
Qed.

(** Finds a piece of a message built with [+:+]; a piece inside one of
    the literals is found by computation. *)
Ltac find_name :=
  first
    [ apply names_here
    | apply names_end
    | apply names_skip; find_name
    | apply infix_of_names; vm_compute; reflexivity ].

(** ** Messages as C strings *)

Lemma has_nul_append (a b : string) :
  has_nul (a +:+ b) = has_nul a || has_nul b.
Proof.
  induction a as [|x a IH]; [reflexivity|].
  rewrite append_cons. simpl. rewrite IH. apply orb_assoc.
Qed.

Lemma c_str_append (a b : string) :
  c_str (a +:+ b) = if has_nul a then c_str a else a +:+ c_str b.
Proof.
  induction a as [|x a IH]; [reflexivity|].
  rewrite append_cons. simpl.
  destruct (Ascii.eqb x nul); simpl; [reflexivity|].
  rewrite IH. destruct (has_nul a); reflexivity.
Qed.

Lemma c_str_nul_free (s : string) : has_nul s = false -> c_str s = s.
Proof.
  induction s as [|x s IH]; simpl; [reflexivity|].
  destruct (Ascii.eqb x nul); simpl; [discriminate|].
  intros H. rewrite (IH H). reflexivity.
Qed.

Lemma has_nul_quoted (s : string) : has_nul (quoted s) = has_nul s.
Proof.
  unfold quoted. rewrite !has_nul_append. simpl.
  apply orb_false_r.
Qed.

Lemma accepted_jacobian_nul_free (j : string) :
  accepted_jacobian j -> has_nul j = false.
Proof.
  unfold accepted_jacobian, accepted_jacobians.
  rewrite list_elem_of_In. simpl.
  intros H. repeat (destruct H as [<-|H]; [reflexivity|]). contradiction.
Qed.

(** The message of the first check: whole when the jacobian has no NUL,
    cut inside the quoted jacobian otherwise. *)
Lemma c_str_msg_unknown_jacobian (j : string) :
  c_str (msg_unknown_jacobian j) =
  if has_nul j then "Unknown jacobian type " +:+ dquote +:+ c_str j
  else msg_unknown_jacobian j.
Proof.
  destruct (has_nul j) eqn:Hj.
  - unfold msg_unknown_jacobian, quoted. rewrite !append_assoc.
    rewrite !c_str_append, Hj. reflexivity.
  - apply c_str_nul_free. unfold msg_unknown_jacobian.
    rewrite !has_nul_append, !has_nul_quoted, Hj. reflexivity.
Qed.

(** The message of the third check, likewise. *)
Lemma c_str_msg_unknown_preconditioner (p : string) :
  c_str (msg_unknown_preconditioner p) =
  if has_nul p then "Unknown preconditioner " +:+ dquote +:+ c_str p
  else msg_unknown_preconditioner p.
Proof.
  destruct (has_nul p) eqn:Hp.
  - unfold msg_unknown_preconditioner, quoted. rewrite !append_assoc.
    rewrite !c_str_append, Hp. reflexivity.
  - apply c_str_nul_free. unfold msg_unknown_preconditioner.
    rewrite !has_nul_append, !has_nul_quoted, Hp. reflexivity.
Qed.

(** The messages of the second check, for a jacobian without NUL: whole
    when the linear solver has no NUL, cut inside the quoted linear solver
    otherwise. *)
Lemma c_str_msg_pair (head j l tail : string) :
  has_nul head = false -> has_nul j = false -> has_nul tail = false ->
  c_str (msg_pair head j l tail) =
  if has_nul l
  then head +:+ "jacobian = " +:+ quoted j +:+ " linear solver = " +:+
       dquote +:+ c_str l
  else msg_pair head j l tail.
Proof.
  intros Hh Hj Ht. destruct (has_nul l) eqn:Hl.
  - unfold msg_pair, quoted. rewrite !append_assoc.
    rewrite !c_str_append, Hh, Hj, Hl. reflexivity.
  - apply c_str_nul_free. unfold msg_pair.
    rewrite !has_nul_append, !has_nul_quoted, Hh, Hj, Hl, Ht. reflexivity.
Qed.

(** Every message of the second check is built by [msg_pair], from a
    head and a tail without NUL. *)
Lemma msg_incompatible_pair (j l : string) :
  exists head tail,
    msg_incompatible j l = msg_pair head j l tail /\
    has_nul head = false /\ has_nul tail = false.
Proof.
  unfold msg_incompatible, msg_banded, msg_sparse, msg_matrix_free,
    msg_none, msg_other.
  repeat destruct (j =? _); eexists _, _;
    (split; [reflexivity|]); split; reflexivity.
Qed.

(** A message of the second check is shown whole when neither value
    has a NUL. *)
Lemma what_msg_incompatible_whole (j l : string) :
  has_nul j = false -> has_nul l = false ->
  what (domain_error (msg_incompatible j l)) = Some (msg_incompatible j l).
Proof.
  intros Hj Hl. simpl. f_equal.
  destruct (msg_incompatible_pair j l) as (head & tail & -> & Hh & Ht).
  rewrite (c_str_msg_pair _ _ _ _ Hh Hj Ht), Hl. reflexivity.
Qed.

(** A value between double quotes is, before that, a value after an
    opening double quote. *)
Lemma names_quoted_open (w v : string) :
  names w (quoted v) -> names w (dquote +:+ v).
Proof.
  intros (pre & post & ->). exists pre, (dquote +:+ post).
  unfold quoted. rewrite !append_assoc. reflexivity.
Qed.

(** ** The body against the decision table *)

(** Case analysis on every string comparison of the goal; the equations
    found are kept and used to settle the later comparisons. *)
Ltac use_eqs :=
  repeat match goal with
  | H : ?a = _ |- context [?a] => rewrite !H
  end.

Ltac split_eqb :=
  repeat match goal with
  | |- context [String.eqb ?a ?b] =>
      let H := fresh "Heq" in
      destruct (String.eqb_spec a b) as [H|H]; simpl; use_eqs; simpl
  end.

(** Membership in the tables of the specification: by computation on
    closed strings, by enumeration otherwise. *)
Ltac table :=
  unfold accepted_jacobian, compatible, is_krylov, valid_preconditioner;
  use_eqs;
  first
    [ compute_done
    | unfold accepted_jacobians, compatibility_matrix, krylov_solvers;
      rewrite ?list_elem_of_In; simpl; intuition congruence ].

Section Body.
Context {E : Extern}.

Lemma body_outcome_eq (o : Options E) (r r' : result (Options E)) :
  r' = r -> body_outcome o r' -> body_outcome o r.
Proof. intros <-. exact id. Qed.

(** One row of the table: its side conditions, then the outcome. *)
Ltac row c :=
  eapply body_outcome_eq; [ | solve [apply c; table] ]; use_eqs; reflexivity.

Lemma Options_body_outcome (o : Options E) : body_outcome o (Options_body o).
Proof.
  unfold Options_body, check_jacobian, check_linear_solver,
    check_preconditioner. simpl. split_eqb.
  all: lazymatch goal with
    | |- body_outcome _ (Throw (domain_error (msg_unknown_jacobian _))) =>
        row (@unknown_jacobian E)
    | |- body_outcome _
           (Throw (domain_error (msg_unknown_preconditioner _))) =>
        row (@unknown_preconditioner E)
    | |- body_outcome _ (Throw _) => row (@incompatible E)
    | |- body_outcome _ (Ok (set_preconditioner _ _)) => row (@direct_ok E)
    | |- body_outcome _ (Ok _) => row (@iterative_ok E)
    end.
Qed.

Lemma compatible_accepted (j l : string) :
  compatible j l -> accepted_jacobian j.
Proof.
  unfold compatible, accepted_jacobian, compatibility_matrix,
    accepted_jacobians, krylov_solvers.
  rewrite !list_elem_of_In. simpl.
  intros H.
  repeat (destruct H as [H|H]; [injection H as <- <-; tauto|]).
  contradiction.
Qed.

Lemma sparse_flag_true (j : string) :
  sparse_flag j = true <-> j = "sparse" \/ j = "matrix-free".
Proof.
  unfold sparse_flag. rewrite orb_true_iff, !String.eqb_eq. reflexivity.
Qed.

Lemma banded_flag_true (j : string) : banded_flag j = true <-> j = "banded".
Proof. apply String.eqb_eq. Qed.

(** The body succeeds exactly on the rows of the table that accept. *)
Lemma Options_body_succeeds (o : Options E) :
  succeeds (Options_body o) <->
  compatible (jacobian o) (linear_solver o) /\
  (is_krylov (linear_solver o) -> valid_preconditioner (preconditioner o)).
Proof.
  pose proof (@compatible_accepted (jacobian o) (linear_solver o)).
  unfold succeeds.
  destruct (Options_body_outcome o); split;
    try (intros [? [=]]); try tauto; eauto.
Qed.

(** The body ends in one of two ways only. *)
Lemma Options_body_total (o : Options E) :
  succeeds (Options_body o) \/ fails (Options_body o).
Proof. unfold succeeds, fails. destruct (Options_body o); eauto. Qed.

(** What a successful body returns. *)
Lemma Options_body_ok (o o' : Options E) :
  Options_body o = Ok o' ->
  compatible (jacobian o) (linear_solver o) /\
  ((is_krylov (linear_solver o) /\
    valid_preconditioner (preconditioner o) /\
    o' = set_flags (sparse_flag (jacobian o)) (banded_flag (jacobian o))
           true o) \/
   (~ is_krylov (linear_solver o) /\
    o' = set_preconditioner "none"
           (set_flags (sparse_flag (jacobian o)) (banded_flag (jacobian o))
              false o))).
Proof.
  intros H. destruct (Options_body_outcome o); try discriminate;
    injection H as <-; tauto.
Qed.

(** The values that the flags hold before the body do not matter. *)
Lemma check_jacobian_initial_flags (sp bd it : bool) (o : Options E) :
  check_jacobian (set_flags sp bd it o) =
  (o1 <- check_jacobian o ;; Ok (set_using_iterative_solver it o1)).
Proof.
  unfold check_jacobian. simpl.
  destruct (jacobian o =? "sparse"); [reflexivity|].
  destruct (jacobian o =? "banded"); [reflexivity|].
  destruct ((jacobian o =? "dense") || (jacobian o =? "none"));
    [reflexivity|].
  destruct (jacobian o =? "matrix-free"); reflexivity.
Qed.

Lemma check_linear_solver_initial_flag (it : bool) (o : Options E) :
  check_linear_solver (set_using_iterative_solver it o) =
  check_linear_solver o.
Proof. reflexivity. Qed.

Lemma Options_body_initial_flags (sp bd it : bool) (o : Options E) :
  Options_body (set_flags sp bd it o) = Options_body o.
Proof.
  unfold Options_body. rewrite check_jacobian_initial_flags.
  destruct (check_jacobian o) as [o1|e]; simpl; [|reflexivity].
  rewrite check_linear_solver_initial_flag. reflexivity.
Qed.

(** The initialiser list stores what the dictionary supplies. *)
Lemma init_members_inv (sp bd it : bool) (d : gmap string py_object)
    (m : Options E) :
  init_members sp bd it d = Ok m ->
  kinds_as_supplied d m /\ numeric_as_supplied d m.
Proof.
  unfold init_members. intros H.
  repeat match type of H with
  | bind ?c _ = _ => destruct c eqn:?; simpl in H; [|discriminate]
  end.
  injection H as <-.
  unfold kinds_as_supplied, numeric_as_supplied; simpl.
  repeat split; assumption.
Qed.

Lemma Options_ctor_inv (sp bd it : bool) (d : gmap string py_object)
    (o : Options E) :
  Options_ctor sp bd it d = Ok o ->
  exists m, init_members sp bd it d = Ok m /\ Options_body m = Ok o.
Proof.
  unfold Options_ctor. destruct (init_members sp bd it d) as [m|e]; simpl.
  - intros H. exists m. split; [reflexivity | exact H].
  - discriminate.
Qed.

Lemma Options_ctor_init (sp bd it : bool) (d : gmap string py_object)
    (m : Options E) :
  init_members sp bd it d = Ok m ->
  Options_ctor sp bd it d = Options_body m.
Proof. unfold Options_ctor. intros ->. reflexivity. Qed.

Lemma init_members_initial_flags (sp bd it sp' bd' it' : bool)
    (d : gmap string py_object) :
  init_members sp bd it d =
  (m <- init_members sp' bd' it' d ;; Ok (set_flags sp bd it m)).
Proof.
  unfold init_members.
  repeat (destruct (get _ _ _); simpl; [|reflexivity]).
  reflexivity.
Qed.

(** The constructor does not depend on what the flags held before it. *)
Lemma Options_ctor_initial_flags (sp bd it sp' bd' it' : bool)
    (d : gmap string py_object) :
  Options_ctor sp bd it d = Options_ctor sp' bd' it' d.
Proof.
  unfold Options_ctor.
  rewrite (init_members_initial_flags sp bd it sp' bd' it').
  destruct (init_members sp' bd' it' d) as [m|e]; simpl; [|reflexivity].
  apply Options_body_initial_flags.
Qed.

(** An exception that leaves the constructor comes from the initialiser
    list (pybind11) or is a domain error of the body. *)
Lemma Options_ctor_exceptions (sp bd it : bool) (d : gmap string py_object)
    (e : exception) :
  Options_ctor sp bd it d = Throw e ->
  init_members sp bd it d = Throw e \/ exists msg, e = domain_error msg.
Proof.
  unfold Options_ctor.
  destruct (init_members sp bd it d) as [m|e']; simpl; [|auto].
  intros H. right.
  destruct (Options_body_outcome m); try discriminate;
    injection H as <-; eauto.
Qed.

Lemma names_msg_incompatible_jacobian (j l : string) :
  names (msg_incompatible j l) j.
Proof.
  unfold msg_incompatible, msg_banded, msg_sparse, msg_matrix_free,
    msg_none, msg_other.
  repeat destruct (j =? _); apply names_msg_pair_jacobian.
Qed.

Lemma names_msg_incompatible_linear_solver (j l : string) :
  names (msg_incompatible j l) l.
Proof.
  unfold msg_incompatible, msg_banded, msg_sparse, msg_matrix_free,
    msg_none, msg_other.
  repeat destruct (j =? _); apply names_msg_pair_linear_solver.
Qed.

Lemma get_same_lookup {T : Type} (cast : py_object -> option T)
    (d d' : gmap string py_object) (key : string) :
  d' !! key = d !! key -> get cast d' key = get cast d key.
Proof. unfold get. intros ->. reflexivity. Qed.

End Body.

(** ** The initialiser list can throw *)

(** A dictionary with a compatible pair and without "print_stats": the
    first read throws, before the body runs. *)
Example missing_option_throws :
  Options_ctor (E := python) false false false
    (delete "print_stats" sample_options) =
  Throw (error_already_set "print_stats").
Proof. reflexivity. Qed.

(** A step limit that is not an integer: the cast throws. *)
Example refused_cast_throws :
  Options_ctor (E := python) false false false
    (<["max_num_steps" := PyStr "many"]> sample_options) =
  Throw (cast_error "max_num_steps").
Proof. reflexivity. Qed.

(** ** The compatibility matrix *)

(** C1. For a dictionary that supplies every option (the initialiser list
    completes, with the record [m]), the constructor returns normally if
    and only if the pair (jacobian, linear solver) is in the compatibility
    matrix and, when the solver is a Krylov solver, the preconditioner is
    "none" or "BBDP". *)
Theorem ctor_succeeds_iff_in_matrix {E : Extern} (sp bd it : bool)
    (d : gmap string py_object) (m : Options E) :
  init_members sp bd it d = Ok m ->
  succeeds (Options_ctor sp bd it d) <->
  compatible (jacobian m) (linear_solver m) /\
  (is_krylov (linear_solver m) -> valid_preconditioner (preconditioner m)).
Proof.
  intros Hinit. rewrite (Options_ctor_init _ _ _ _ _ Hinit).
  apply Options_body_succeeds.
Qed.

Lemma ctor_succeeds_iff_in_matrix_witness :
  init_members (E := python) true true true sample_options =
    Ok (sample_members true true true "sparse" "SUNLinSol_KLU" "BBDP") /\
  (succeeds (Options_ctor (E := python) true true true sample_options) <->
   compatible "sparse" "SUNLinSol_KLU" /\
   (is_krylov "SUNLinSol_KLU" -> valid_preconditioner "BBDP")).
Proof.
  split; [reflexivity|].
  apply (ctor_succeeds_iff_in_matrix (E := python) true true true
           sample_options
           (sample_members true true true "sparse" "SUNLinSol_KLU" "BBDP")).
  reflexivity.
Defined.

(** ** The jacobian kind *)

(** C3. Whatever the other entries of the dictionary, the constructor
    fails when the jacobian that the dictionary supplies is not one of
    "sparse", "banded", "dense", "none" and "matrix-free". *)
Theorem unaccepted_jacobian_fails {E : Extern} (sp bd it : bool)
    (d : gmap string py_object) :
  (forall j, get cast_string d "jacobian" = Ok j -> ~ accepted_jacobian j) ->
  fails (Options_ctor sp bd it d).
Proof.
  intros Hj. unfold Options_ctor, fails.
  destruct (init_members sp bd it d) as [m|e] eqn:Hinit; simpl; [|eauto].
  destruct (init_members_inv _ _ _ _ _ Hinit) as [[Hm _] _].
  specialize (Hj _ Hm).
  pose proof (@compatible_accepted (jacobian m) (linear_solver m)).
  destruct (Options_body_outcome m); eauto; tauto.
Qed.

Lemma unaccepted_jacobian_fails_witness :
  (forall j,
     get (E := python) cast_string
       (with_kinds "full" "SUNLinSol_Dense" "none" sample_options)
       "jacobian" = Ok j ->
     ~ accepted_jacobian j) /\
  fails (Options_ctor (E := python) false false false
           (with_kinds "full" "SUNLinSol_Dense" "none" sample_options)).
Proof.
  assert (forall j,
     get (E := python) cast_string
       (with_kinds "full" "SUNLinSol_Dense" "none" sample_options)
       "jacobian" = Ok j ->
     ~ accepted_jacobian j) as Hj.
  { intros j Hget. vm_compute in Hget. injection Hget as <-. compute_done. }
  split; [exact Hj|].
  apply (unaccepted_jacobian_fails (E := python) false false false
           (with_kinds "full" "SUNLinSol_Dense" "none" sample_options) Hj).
Defined.

(** ** The preconditioner *)

(** C4. For a dictionary that supplies every option and selects a Krylov
    solver with a compatible jacobian: the constructor returns normally
    when the preconditioner is "none" or "BBDP", and throws the domain
    error of the preconditioner check otherwise. *)
Theorem krylov_preconditioner_check {E : Extern} (sp bd it : bool)
    (d : gmap string py_object) (m : Options E) :
  init_members sp bd it d = Ok m ->
  is_krylov (linear_solver m) ->
  compatible (jacobian m) (linear_solver m) ->
  (valid_preconditioner (preconditioner m) ->
   succeeds (Options_ctor sp bd it d)) /\
  (~ valid_preconditioner (preconditioner m) ->
   Options_ctor sp bd it d =
   Throw (domain_error (msg_unknown_preconditioner (preconditioner m)))).
Proof.
  intros Hinit Hk Hc. rewrite (Options_ctor_init _ _ _ _ _ Hinit).
  split.
  - intros Hp. apply Options_body_succeeds. tauto.
  - intros Hp. pose proof (@compatible_accepted _ _ Hc).
    destruct (Options_body_outcome m); tauto.
Qed.

Lemma krylov_preconditioner_check_witness :
  Options_ctor (E := python) false false false
    (with_kinds "matrix-free" "SUNLinSol_SPGMR" "ILU" sample_options) =
  Throw (domain_error (msg_unknown_preconditioner "ILU")).
Proof.
  apply (krylov_preconditioner_check (E := python) false false false
           (with_kinds "matrix-free" "SUNLinSol_SPGMR" "ILU" sample_options)
           (sample_members false false false
              "matrix-free" "SUNLinSol_SPGMR" "ILU")).
  - reflexivity.
  - compute_done.
  - compute_done.
  - compute_done.
Defined.

(** C5. Whenever the constructor returns normally with a linear solver
    that is not one of the four Krylov solvers, the preconditioner of the
    result is "none", whatever preconditioner the dictionary supplies. *)
Theorem direct_solver_resets_preconditioner {E : Extern} (sp bd it : bool)
    (d : gmap string py_object) (o : Options E) :
  Options_ctor sp bd it d = Ok o ->
  ~ is_krylov (linear_solver o) ->
  preconditioner o = "none".
Proof.
  intros Hctor Hk.
  destruct (Options_ctor_inv _ _ _ _ _ Hctor) as (m & _ & Hbody).
  destruct (Options_body_ok _ _ Hbody) as [_ [(Hk' & _ & ->) | (_ & ->)]].
  - contradiction.
  - reflexivity.
Qed.

Lemma direct_solver_resets_preconditioner_witness :
  preconditioner
    (set_preconditioner "none"
       (sample_members true false false "sparse" "SUNLinSol_KLU" "BBDP")) =
  "none".
Proof.
  apply (direct_solver_resets_preconditioner (E := python) false false false
           sample_options).
  - reflexivity.
  - compute_done.
Defined.

(** ** The message of an incompatible pair *)

(** C2, as stated, fails on the code: with the jacobian "foo" and the
    solver "SUNLinSol_KLU" the pair is outside the matrix, and the
    constructor throws at the first check, with a message that does not
    name the linear solver. *)
Lemma unknown_jacobian_message_omits_solver :
  ~ compatible "foo" "SUNLinSol_KLU" /\
  Options_ctor (E := python) false false false
    (with_kinds "foo" "SUNLinSol_KLU" "none" sample_options) =
  Throw (domain_error (msg_unknown_jacobian "foo")) /\
  what (domain_error (msg_unknown_jacobian "foo")) =
  Some (msg_unknown_jacobian "foo") /\
  ~ (exists msg,
       Options_ctor (E := python) false false false
         (with_kinds "foo" "SUNLinSol_KLU" "none" sample_options) =
       Throw (domain_error msg) /\
       names msg "foo" /\ names msg "SUNLinSol_KLU").
Proof.
  assert (Options_ctor (E := python) false false false
            (with_kinds "foo" "SUNLinSol_KLU" "none" sample_options) =
          Throw (domain_error (msg_unknown_jacobian "foo"))) as Hthrow
    by reflexivity.
  split; [compute_done|]. split; [exact Hthrow|]. split; [reflexivity|].
  intros (msg & Hmsg & _ & Hsolver).
  rewrite Hthrow in Hmsg. injection Hmsg as <-.
  apply infix_of_names in Hsolver. vm_compute in Hsolver. discriminate.
Qed.

(** C2, amended. For a dictionary that supplies every option and whose
    pair is outside the matrix: when the jacobian is one of the five
    accepted kinds, the constructor throws a domain error whose message
    [what] names the jacobian, and the linear solver up to its first NUL
    character (the whole linear solver when it has none); when the
    jacobian is not accepted, the constructor throws the domain error of
    the first check, whose message names the jacobian up to its first NUL
    character (the whole jacobian when it has none). *)
Theorem incompatible_pair_message {E : Extern} (sp bd it : bool)
    (d : gmap string py_object) (m : Options E) :
  init_members sp bd it d = Ok m ->
  ~ compatible (jacobian m) (linear_solver m) ->
  (accepted_jacobian (jacobian m) ->
   exists msg w,
     Options_ctor sp bd it d = Throw (domain_error msg) /\
     what (domain_error msg) = Some w /\
     names w (jacobian m) /\
     names w (c_str (linear_solver m)) /\
     (has_nul (linear_solver m) = false -> names w (linear_solver m))) /\
  (~ accepted_jacobian (jacobian m) ->
   exists msg w,
     Options_ctor sp bd it d = Throw (domain_error msg) /\
     msg = msg_unknown_jacobian (jacobian m) /\
     what (domain_error msg) = Some w /\
     names w (c_str (jacobian m)) /\
     (has_nul (jacobian m) = false -> names w (jacobian m))).
Proof.
  intros Hinit Hc. rewrite (Options_ctor_init _ _ _ _ _ Hinit).
  split; intros Hj.
  - exists (msg_incompatible (jacobian m) (linear_solver m)),
      (c_str (msg_incompatible (jacobian m) (linear_solver m))).
    split; [destruct (Options_body_outcome m); tauto|].
    split; [reflexivity|].
    destruct (msg_incompatible_pair (jacobian m) (linear_solver m))
      as (head & tail & -> & Hh & Ht).
    rewrite (c_str_msg_pair _ _ _ _ Hh (accepted_jacobian_nul_free _ Hj) Ht).
    destruct (has_nul (linear_solver m)) eqn:Hl.
    + unfold quoted. rewrite !append_assoc.
      split; [find_name|]. split; [find_name | discriminate].
    + rewrite (c_str_nul_free _ Hl).
      split; [apply names_msg_pair_jacobian|].
      split; intros; apply names_msg_pair_linear_solver.
  - exists (msg_unknown_jacobian (jacobian m)),
      (c_str (msg_unknown_jacobian (jacobian m))).
    split; [destruct (Options_body_outcome m); tauto|].
    split; [reflexivity|]. split; [reflexivity|].
    rewrite c_str_msg_unknown_jacobian.
    destruct (has_nul (jacobian m)) eqn:Hn.
    + split; [find_name | discriminate].
    + rewrite (c_str_nul_free _ Hn).
      split; intros; apply names_msg_unknown_jacobian.
Qed.

Lemma incompatible_pair_message_witness :
  exists msg w,
    Options_ctor (E := python) false false false
      (with_kinds "dense" "SUNLinSol_KLU" "none" sample_options) =
    Throw (domain_error msg) /\
    what (domain_error msg) = Some w /\
    names w "dense" /\
    names w (c_str "SUNLinSol_KLU") /\
    (has_nul "SUNLinSol_KLU" = false -> names w "SUNLinSol_KLU").
Proof.
  apply (incompatible_pair_message (E := python) false false false
           (with_kinds "dense" "SUNLinSol_KLU" "none" sample_options)
           (sample_members false false false "dense" "SUNLinSol_KLU" "none")).
  - reflexivity.
  - compute_done.
  - compute_done.
Defined.

(** A linear solver with an embedded NUL character: the message of the
    domain error stops inside the quoted value and does not name it. *)
Example embedded_nul_cuts_message :
  Options_ctor (E := python) false false false
    (with_kinds "banded" solver_with_nul "none" sample_options) =
  Throw (domain_error (msg_banded "banded" solver_with_nul)) /\
  what (domain_error (msg_banded "banded" solver_with_nul)) =
  Some ("Unknown linear solver or incompatible options: jacobian = " +:+
        quoted "banded" +:+ " linear solver = " +:+ dquote +:+ "ab") /\
  infix_of solver_with_nul
    (c_str (msg_banded "banded" solver_with_nul)) = false.
Proof. repeat split; reflexivity. Qed.

(** ** The failures of the validation *)

(** C6. For a dictionary that supplies every option, each of the three
    validation failures throws [std::domain_error] with its message (an
    unknown jacobian kind, an incompatible pair, an unknown preconditioner
    for a Krylov solver), and every exception that the constructor throws
    is such a domain error, with a message that is not empty. *)
Theorem validation_throws_domain_error {E : Extern} (sp bd it : bool)
    (d : gmap string py_object) (m : Options E) :
  init_members sp bd it d = Ok m ->
  (~ accepted_jacobian (jacobian m) ->
   Options_ctor sp bd it d =
   Throw (domain_error (msg_unknown_jacobian (jacobian m)))) /\
  (accepted_jacobian (jacobian m) ->
   ~ compatible (jacobian m) (linear_solver m) ->
   Options_ctor sp bd it d =
   Throw (domain_error (msg_incompatible (jacobian m) (linear_solver m)))) /\
  (compatible (jacobian m) (linear_solver m) ->
   is_krylov (linear_solver m) ->
   ~ valid_preconditioner (preconditioner m) ->
   Options_ctor sp bd it d =
   Throw (domain_error (msg_unknown_preconditioner (preconditioner m)))) /\
  (forall e, Options_ctor sp bd it d = Throw e ->
   exists msg,
     e = domain_error msg /\ msg <> EmptyString /\
     (~ accepted_jacobian (jacobian m) \/
      ~ compatible (jacobian m) (linear_solver m) \/
      (is_krylov (linear_solver m) /\
       ~ valid_preconditioner (preconditioner m)))).
Proof.
  intros Hinit. rewrite (Options_ctor_init _ _ _ _ _ Hinit).
  pose proof (@compatible_accepted (jacobian m) (linear_solver m)) as Hca.
  repeat split; try (intros; destruct (Options_body_outcome m); tauto).
  intros e He.
  destruct (Options_body_outcome m); try discriminate;
    injection He as <-; eexists; (split; [reflexivity|]); split;
    try tauto.
  - discriminate.
  - unfold msg_incompatible, msg_banded, msg_sparse, msg_matrix_free,
      msg_none, msg_other. repeat destruct (_ =? _); discriminate.
  - discriminate.
Qed.

Lemma validation_throws_domain_error_witness :
  Options_ctor (E := python) false false false
    (with_kinds "none" "SUNLinSol_Band" "none" sample_options) =
  Throw (domain_error (msg_incompatible "none" "SUNLinSol_Band")).
Proof.
  apply (validation_throws_domain_error (E := python) false false false
           (with_kinds "none" "SUNLinSol_Band" "none" sample_options)
           (sample_members false false false "none" "SUNLinSol_Band" "none")).
  - reflexivity.
  - compute_done.
  - compute_done.
Defined.

(** ** The derived flags *)

(** C7. Whenever the constructor returns normally, [using_banded_matrix]
    holds exactly for the jacobian "banded", and [using_sparse_matrix]
    exactly for the jacobians "sparse" and "matrix-free". *)
Theorem matrix_flags_follow_jacobian {E : Extern} (sp bd it : bool)
    (d : gmap string py_object) (o : Options E) :
  Options_ctor sp bd it d = Ok o ->
  (using_banded_matrix o = true <-> jacobian o = "banded") /\
  (using_sparse_matrix o = true <->
   jacobian o = "sparse" \/ jacobian o = "matrix-free").
Proof.
  intros Hctor.
  destruct (Options_ctor_inv _ _ _ _ _ Hctor) as (m & _ & Hbody).
  destruct (Options_body_ok _ _ Hbody) as [_ [(_ & _ & ->) | (_ & ->)]];
    simpl; split;
    first [apply banded_flag_true | apply sparse_flag_true].
Qed.

Lemma matrix_flags_follow_jacobian_witness :
  (using_banded_matrix
     (sample_members true false true "matrix-free" "SUNLinSol_SPGMR" "BBDP")
   = true <-> "matrix-free" = "banded") /\
  (using_sparse_matrix
     (sample_members true false true "matrix-free" "SUNLinSol_SPGMR" "BBDP")
   = true <-> "matrix-free" = "sparse" \/ "matrix-free" = "matrix-free").
Proof.
  apply (matrix_flags_follow_jacobian (E := python) false true false
           (with_kinds "matrix-free" "SUNLinSol_SPGMR" "BBDP"
              sample_options)).
  reflexivity.
Defined.

(** C8. Whenever the constructor returns normally,
    [using_iterative_solver] holds exactly when the linear solver is one
    of the four Krylov solvers. *)
Theorem iterative_flag_follows_solver {E : Extern} (sp bd it : bool)
    (d : gmap string py_object) (o : Options E) :
  Options_ctor sp bd it d = Ok o ->
  using_iterative_solver o = true <-> is_krylov (linear_solver o).
Proof.
  intros Hctor.
  destruct (Options_ctor_inv _ _ _ _ _ Hctor) as (m & _ & Hbody).
  destruct (Options_body_ok _ _ Hbody) as [_ [(Hk & _ & ->) | (Hk & ->)]];
    simpl; split; intros H; try assumption; try reflexivity.
  - discriminate.
  - contradiction.
Qed.

Lemma iterative_flag_follows_solver_witness :
  using_iterative_solver
    (sample_members true false true "sparse" "SUNLinSol_SPBCGS" "none") =
  true <-> is_krylov "SUNLinSol_SPBCGS".
Proof.
  apply (iterative_flag_follows_solver (E := python) false false false
           (with_kinds "sparse" "SUNLinSol_SPBCGS" "none" sample_options)).
  reflexivity.
Defined.

(** ** The numeric and boolean options *)

(** C9. Whenever the constructor returns normally, each of the 24 numeric
    and boolean fields of the result is the cast of the entry that the
    dictionary supplies, and the constructor returns normally as well on
    every dictionary that supplies every option and has the same jacobian,
    linear solver and preconditioner entries: no numeric or boolean value
    makes it fail. *)
Theorem numeric_options_unvalidated {E : Extern} (sp bd it : bool)
    (d : gmap string py_object) (o : Options E) :
  Options_ctor sp bd it d = Ok o ->
  numeric_as_supplied d o /\
  (forall (sp' bd' it' : bool) (d' : gmap string py_object),
     same_kinds d d' ->
     succeeds (init_members sp' bd' it' d') ->
     succeeds (Options_ctor sp' bd' it' d')).
Proof.
  intros Hctor.
  destruct (Options_ctor_inv _ _ _ _ _ Hctor) as (m & Hinit & Hbody).
  destruct (init_members_inv _ _ _ _ _ Hinit) as [(Hj & Hp & Hl) Hnum].
  split.
  - destruct (Options_body_ok _ _ Hbody) as [_ [(_ & _ & ->) | (_ & ->)]];
      exact Hnum.
  - intros sp' bd' it' d' (Sj & Sp & Sl) [m' Hinit'].
    destruct (init_members_inv _ _ _ _ _ Hinit') as [(Hj' & Hp' & Hl') _].
    rewrite (get_same_lookup _ _ _ _ Sj), Hj in Hj'.
    rewrite (get_same_lookup _ _ _ _ Sp), Hp in Hp'.
    rewrite (get_same_lookup _ _ _ _ Sl), Hl in Hl'.
    injection Hj' as Hj'. injection Hp' as Hp'. injection Hl' as Hl'.
    rewrite (Options_ctor_init _ _ _ _ _ Hinit').
    apply Options_body_succeeds. rewrite <- Hj', <- Hp', <- Hl'.
    apply Options_body_succeeds. exists o. exact Hbody.
Qed.

Lemma numeric_options_unvalidated_witness :
  Options_ctor (E := python) false false false negative_options =
    Ok negative_result /\
  max_num_steps negative_result = (-5)%Z /\
  dt_max negative_result = minus_one /\
  numeric_as_supplied (E := python) negative_options negative_result /\
  (forall (sp' bd' it' : bool) (d' : gmap string py_value),
     same_kinds (E := python) negative_options d' ->
     succeeds (init_members (E := python) sp' bd' it' d') ->
     succeeds (Options_ctor (E := python) sp' bd' it' d')).
Proof.
  split; [reflexivity|]. split; [reflexivity|]. split; [reflexivity|].
  apply (numeric_options_unvalidated (E := python) false false false
           negative_options negative_result).
  reflexivity.
Defined.

(** * Further properties of the constructor *)

(** ** The reads of the initialiser list *)

Section Reads.
Context {E : Extern}.

Lemma get_succeeds {T : Type} (cast : py_object -> option T)
    (d : gmap string py_object) (key : string) :
  succeeds (get cast d key) <->
  exists v, d !! key = Some v /\ is_Some (cast v).
Proof.
  unfold succeeds, get. destruct (d !! key) as [v|].
  - destruct (cast v) as [x|] eqn:Hc; split.
    + intros _. exists v. rewrite Hc. split; [reflexivity | eexists; reflexivity].
    + intros _. exists x. reflexivity.
    + intros [? [=]].
    + intros (v' & [= <-] & [? Hx]). rewrite Hc in Hx. discriminate.
  - split; [intros [? [=]] | intros (? & [=] & _)].
Qed.

Lemma readable_get (d : gmap string py_object) (key : string) (t : ctype) :
  readable d (key, t) = true <->
  match t with
  | c_bool => succeeds (get cast_bool d key)
  | c_int => succeeds (get cast_int d key)
  | c_double => succeeds (get cast_double d key)
  | c_string => succeeds (get cast_string d key)
  | c_sunbooleantype => succeeds (get cast_sunbooleantype d key)
  end.
Proof.
  destruct t; rewrite get_succeeds; unfold readable, castable; simpl;
    (destruct (d !! key) as [v|];
     [ rewrite bool_decide_eq_true; split;
       [ intros H; exists v; split; [reflexivity | exact H]
       | intros (v' & [= <-] & H); exact H ]
     | split; [discriminate | intros (? & [=] & _)] ]).
Qed.

Lemma get_throw {T : Type} (cast : py_object -> option T)
    (d : gmap string py_object) (key : string) (e : exception) :
  get cast d key = Throw e ->
  e = error_already_set key \/ e = cast_error key.
Proof.
  unfold get. destruct (d !! key) as [v|]; [destruct (cast v)|];
    intros [= <-]; auto.
Qed.

Lemma get_insert_eq {T : Type} (cast : py_object -> option T)
    (d : gmap string py_object) (key : string) (v : py_object) (x : T) :
  cast v = Some x -> get cast (<[key := v]> d) key = Ok x.
Proof. intros H. unfold get. rewrite lookup_insert_eq, H. reflexivity. Qed.

Lemma get_insert_ne {T : Type} (cast : py_object -> option T)
    (d : gmap string py_object) (key key' : string) (v : py_object) :
  key <> key' -> get cast (<[key := v]> d) key' = get cast d key'.
Proof. intros H. unfold get. rewrite lookup_insert_ne by exact H. reflexivity. Qed.

(** The initialiser list completes exactly when every entry of the table
    can be read. *)
Lemma init_members_readable (sp bd it : bool) (d : gmap string py_object) :
  succeeds (init_members sp bd it d) <->
  forallb (readable d) option_table = true.
Proof.
  unfold option_table. simpl forallb.
  rewrite !andb_true_iff, !readable_get. split.
  - intros [m H]. unfold init_members in H.
    repeat match type of H with
    | bind ?c _ = _ => destruct c eqn:?; simpl in H; [|discriminate]
    end.
    unfold succeeds. repeat split; eauto.
  - intros H.
    repeat match type of H with
    | _ /\ _ => let H1 := fresh "R" in destruct H as [[? H1] H]
    end.
    clear H. unfold init_members.
    repeat match goal with
    | R : get _ _ _ = Ok _ |- _ => rewrite R; clear R
    end.
    simpl. eexists. reflexivity.
Qed.

(** An exception of the initialiser list is pybind11's, for one of the
    keys of the table. *)
Lemma init_members_exceptions (sp bd it : bool)
    (d : gmap string py_object) (e : exception) :
  init_members sp bd it d = Throw e ->
  exists key, key ∈ option_keys /\
    (e = error_already_set key \/ e = cast_error key).
Proof.
  unfold init_members. intros H.
  repeat match type of H with
  | bind ?c _ = _ =>
      let Hg := fresh "Hg" in
      destruct c eqn:Hg; simpl in H;
      [ clear Hg
      | injection H as ->; apply get_throw in Hg;
        eexists; split; [|exact Hg]; compute_done ]
  end.
  discriminate.
Qed.

(** The initialiser list looks at the keys of the table only. *)
Lemma init_members_same_lookups (sp bd it : bool)
    (d d' : gmap string py_object) :
  (forall key, key ∈ option_keys -> d' !! key = d !! key) ->
  init_members sp bd it d' = init_members sp bd it d.
Proof.
  intros H.
  assert (forall (T : Type) (cast : py_object -> option T) (key : string),
            key ∈ option_keys -> get cast d' key = get cast d key) as Hget.
  { intros T cast key Hk. apply get_same_lookup, H, Hk. }
  unfold init_members. rewrite !Hget by compute_done. reflexivity.
Qed.

(** Replacing the preconditioner entry changes that field only. *)
Lemma init_members_insert_preconditioner (sp bd it : bool)
    (d : gmap string py_object) (m : Options E) (v : py_object)
    (p : string) :
  init_members sp bd it d = Ok m ->
  cast_string v = Some p ->
  init_members sp bd it (<["preconditioner" := v]> d) =
  Ok (set_preconditioner p m).
Proof.
  intros H Hv. unfold init_members in *.
  rewrite (get_insert_eq _ _ _ _ _ Hv).
  rewrite !get_insert_ne by discriminate.
  repeat match type of H with
  | bind ?c _ = _ => destruct c eqn:?; simpl in H; [|discriminate]
  end.
  injection H as <-. reflexivity.
Qed.

End Reads.

(** X1. The three flags are not initialised before the body: whatever
    they hold then, the constructor gives the same result or throws the
    same exception. *)
Theorem ctor_ignores_uninitialised_flags {E : Extern}
    (sp bd it sp' bd' it' : bool) (d : gmap string py_object) :
  Options_ctor sp bd it d = Options_ctor sp' bd' it' d.
Proof.
  unfold Options_ctor.
  rewrite (init_members_initial_flags sp bd it sp' bd' it').
  destruct (init_members sp' bd' it' d) as [m|e]; simpl.
  - apply Options_body_initial_flags.
  - reflexivity.
Qed.

(** X2. The initialiser list completes exactly when the dictionary has
    each of the 27 keys of the table with an object that casts to the type
    of its field. *)
Theorem init_completes_iff_table_readable {E : Extern} (sp bd it : bool)
    (d : gmap string py_object) :
  succeeds (init_members sp bd it d) <->
  forall key t, (key, t) ∈ option_table ->
    exists v, d !! key = Some v /\ castable t v = true.
Proof.
  rewrite init_members_readable, forallb_forall. split.
  - intros H key t Hin. apply list_elem_of_In in Hin.
    specialize (H _ Hin). unfold readable in H. simpl in H.
    destruct (d !! key) as [v|]; [|discriminate].
    exists v. split; [reflexivity | exact H].
  - intros H [key t] Hin. apply list_elem_of_In in Hin.
    destruct (H _ _ Hin) as (v & Hv & Hc).
    unfold readable. simpl. rewrite Hv. exact Hc.
Qed.

(** X3. The constructor returns normally exactly when every entry of the
    table can be read, the pair (jacobian, linear solver) that the
    dictionary supplies is in the compatibility matrix and, for a Krylov
    solver, the preconditioner supplied is "none" or "BBDP". *)
Theorem ctor_succeeds_iff {E : Extern} (sp bd it : bool)
    (d : gmap string py_object) :
  succeeds (Options_ctor sp bd it d) <->
  forallb (readable d) option_table = true /\
  exists j l p,
    get cast_string d "jacobian" = Ok j /\
    get cast_string d "linear_solver" = Ok l /\
    get cast_string d "preconditioner" = Ok p /\
    compatible j l /\ (is_krylov l -> valid_preconditioner p).
Proof.
  rewrite <- (init_members_readable sp bd it). split.
  - intros [o Hctor].
    destruct (Options_ctor_inv _ _ _ _ _ Hctor) as (m & Hinit & Hbody).
    destruct (init_members_inv _ _ _ _ _ Hinit) as [(Hj & Hp & Hl) _].
    split; [exists m; exact Hinit|].
    exists (jacobian m), (linear_solver m), (preconditioner m).
    repeat (split; [assumption|]).
    apply Options_body_succeeds. exists o. exact Hbody.
  - intros [[m Hinit] (j & l & p & Hj & Hl & Hp & Hc)].
    destruct (init_members_inv _ _ _ _ _ Hinit) as [(Hj' & Hp' & Hl') _].
    rewrite Hj in Hj'. rewrite Hl in Hl'. rewrite Hp in Hp'.
    injection Hj' as ->. injection Hl' as ->. injection Hp' as ->.
    rewrite (Options_ctor_init _ _ _ _ _ Hinit).
    apply Options_body_succeeds. exact Hc.
Qed.

(** X4. When one of the 27 keys is missing from the dictionary, the
    constructor throws one of pybind11's exceptions, for a key of the
    table: it neither returns nor throws a domain error, whatever the
    other entries are. *)
Theorem missing_option_fails {E : Extern} (sp bd it : bool)
    (d : gmap string py_object) (key : string) :
  key ∈ option_keys ->
  d !! key = None ->
  exists key',
    key' ∈ option_keys /\
    (Options_ctor sp bd it d = Throw (error_already_set key') \/
     Options_ctor sp bd it d = Throw (cast_error key')).
Proof.
  intros Hkey Hnone. unfold Options_ctor.
  destruct (init_members sp bd it d) as [m|e] eqn:Hinit; simpl.
  - assert (succeeds (init_members sp bd it d)) as Hs by (exists m; exact Hinit).
    apply init_members_readable in Hs.
    apply list_elem_of_In, in_map_iff in Hkey as ([k t] & <- & Hin).
    rewrite forallb_forall in Hs. specialize (Hs _ Hin).
    unfold readable in Hs. simpl in Hs, Hnone. rewrite Hnone in Hs.
    discriminate.
  - destruct (init_members_exceptions _ _ _ _ _ Hinit) as (k & Hk & [->| ->]);
      exists k; auto.
Qed.

Lemma missing_option_fails_witness :
  exists key',
    key' ∈ option_keys /\
    (Options_ctor (E := python) false false false
       (delete "dt_max"
          (with_kinds "full" "SUNLinSol_KLU" "ILU" sample_options)) =
     Throw (error_already_set key') \/
     Options_ctor (E := python) false false false
       (delete "dt_max"
          (with_kinds "full" "SUNLinSol_KLU" "ILU" sample_options)) =
     Throw (cast_error key')).
Proof.
  apply (missing_option_fails (E := python) false false false
           (delete "dt_max"
              (with_kinds "full" "SUNLinSol_KLU" "ILU" sample_options))
           "dt_max").
  - compute_done.
  - reflexivity.
Defined.

(** X5. A domain error is thrown only after every read of the initialiser
    list has succeeded: the dictionary then has all 27 options, with
    objects that cast. *)
Theorem domain_error_after_all_reads {E : Extern} (sp bd it : bool)
    (d : gmap string py_object) (msg : string) :
  Options_ctor sp bd it d = Throw (domain_error msg) ->
  forallb (readable d) option_table = true.
Proof.
  intros Hctor. apply (init_members_readable sp bd it).
  unfold Options_ctor in Hctor.
  destruct (init_members sp bd it d) as [m|e] eqn:Hinit; simpl in Hctor.
  - exists m. reflexivity.
  - injection Hctor as ->.
    destruct (init_members_exceptions _ _ _ _ _ Hinit) as (k & _ & [H|H]);
      discriminate.
Qed.

Lemma domain_error_after_all_reads_witness :
  forallb (readable (E := python)
             (with_kinds "banded" "SUNLinSol_KLU" "none" sample_options))
    option_table = true.
Proof.
  apply (domain_error_after_all_reads (E := python) false false false
           (with_kinds "banded" "SUNLinSol_KLU" "none" sample_options)
           (msg_banded "banded" "SUNLinSol_KLU")).
  reflexivity.
Defined.

(** X6. The constructor looks at the 27 keys of the table only: two
    dictionaries with the same entries under these keys give the same
    result, so any other key is ignored. *)
Theorem unread_keys_ignored {E : Extern} (sp bd it : bool)
    (d d' : gmap string py_object) :
  (forall key, key ∈ option_keys -> d' !! key = d !! key) ->
  Options_ctor sp bd it d' = Options_ctor sp bd it d.
Proof.
  intros H. unfold Options_ctor.
  rewrite (init_members_same_lookups sp bd it d d' H). reflexivity.
Qed.

Lemma unread_keys_ignored_witness :
  Options_ctor (E := python) false false false
    (<["jacobain" := PyStr "dense"]> sample_options) =
  Options_ctor (E := python) false false false sample_options.
Proof.
  apply (unread_keys_ignored (E := python) false false false sample_options
           (<["jacobain" := PyStr "dense"]> sample_options)).
  intros key Hkey. apply lookup_insert_ne. intros <-.
  revert Hkey. compute_done.
Defined.

(** ** The record that the constructor returns *)

Section Results.
Context {E : Extern}.

(** The rows of the compatibility matrix, by solver family. *)
Lemma compatible_cases (j l : string) :
  compatible j l ->
  (l = "SUNLinSol_Dense" /\ (j = "dense" \/ j = "none")) \/
  (j = "sparse" /\
   (l = "SUNLinSol_KLU" \/ l = "SUNLinSol_cuSolverSp_batchQR")) \/
  (j = "banded" /\ l = "SUNLinSol_Band") \/
  ((j = "sparse" \/ j = "matrix-free") /\ is_krylov l).
Proof.
  assert (is_krylov "SUNLinSol_SPBCGS") by compute_done.
  assert (is_krylov "SUNLinSol_SPFGMR") by compute_done.
  assert (is_krylov "SUNLinSol_SPGMR") by compute_done.
  assert (is_krylov "SUNLinSol_SPTFQMR") by compute_done.
  unfold compatible, compatibility_matrix, krylov_solvers.
  rewrite list_elem_of_In. simpl. intros Hin.
  repeat (destruct Hin as [Hin|Hin]; [injection Hin as <- <-; tauto|]).
  contradiction.
Qed.

(** What a successful body leaves in each field that it can write. *)
Lemma Options_body_result (m o : Options E) :
  Options_body m = Ok o ->
  jacobian o = jacobian m /\ linear_solver o = linear_solver m /\
  using_sparse_matrix o = sparse_flag (jacobian o) /\
  using_banded_matrix o = banded_flag (jacobian o) /\
  compatible (jacobian o) (linear_solver o) /\
  ((is_krylov (linear_solver o) /\
    valid_preconditioner (preconditioner o) /\
    preconditioner o = preconditioner m /\
    using_iterative_solver o = true) \/
   (~ is_krylov (linear_solver o) /\
    preconditioner o = "none" /\
    using_iterative_solver o = false)).
Proof.
  intros H.
  destruct (Options_body_ok _ _ H) as [Hc [(Hk & Hp & ->) | (Hk & ->)]];
    simpl; repeat (split; [first [reflexivity | assumption]|]).
  - left. auto.
  - right. auto.
Qed.

(** For a solver that is not a Krylov solver, the body does not read the
    preconditioner. *)
Lemma Options_body_direct_preconditioner (m : Options E) (p : string) :
  ~ is_krylov (linear_solver m) ->
  Options_body (set_preconditioner p m) = Options_body m.
Proof.
  intros Hk.
  pose proof (@compatible_accepted (jacobian m) (linear_solver m)) as Hca.
  destruct (Options_body_outcome m);
    destruct (Options_body_outcome (set_preconditioner p m));
    simpl in *; first [reflexivity | tauto].
Qed.

End Results.

(** X7. On success the jacobian and the linear solver of the record are
    the casts of the entries supplied, and so is the preconditioner when
    the iterative flag is set. *)
Theorem kinds_stored_as_supplied {E : Extern} (sp bd it : bool)
    (d : gmap string py_object) (o : Options E) :
  Options_ctor sp bd it d = Ok o ->
  get cast_string d "jacobian" = Ok (jacobian o) /\
  get cast_string d "linear_solver" = Ok (linear_solver o) /\
  (using_iterative_solver o = true ->
   get cast_string d "preconditioner" = Ok (preconditioner o)).
Proof.
  intros Hctor.
  destruct (Options_ctor_inv _ _ _ _ _ Hctor) as (m & Hinit & Hbody).
  destruct (init_members_inv _ _ _ _ _ Hinit) as [(Hj & Hp & Hl) _].
  destruct (Options_body_result _ _ Hbody)
    as (-> & -> & _ & _ & _ & [(_ & _ & -> & _) | (_ & _ & Hit)]).
  - auto.
  - repeat (split; [assumption|]). rewrite Hit. discriminate.
Qed.

Lemma kinds_stored_as_supplied_witness :
  get (E := python) cast_string
    (with_kinds "sparse" "SUNLinSol_SPFGMR" "BBDP" sample_options)
    "jacobian" = Ok "sparse" /\
  get (E := python) cast_string
    (with_kinds "sparse" "SUNLinSol_SPFGMR" "BBDP" sample_options)
    "linear_solver" = Ok "SUNLinSol_SPFGMR" /\
  (true = true ->
   get (E := python) cast_string
     (with_kinds "sparse" "SUNLinSol_SPFGMR" "BBDP" sample_options)
     "preconditioner" = Ok "BBDP").
Proof.
  apply (kinds_stored_as_supplied (E := python) false false false
           (with_kinds "sparse" "SUNLinSol_SPFGMR" "BBDP" sample_options)
           (sample_members true false true
              "sparse" "SUNLinSol_SPFGMR" "BBDP")).
  reflexivity.
Defined.

(** X8. Every record that the constructor returns is well formed: its
    jacobian is one of the five kinds, its pair is in the compatibility
    matrix, its preconditioner is "none" or "BBDP", and "BBDP" occurs with
    a Krylov solver only. *)
Theorem result_well_formed {E : Extern} (sp bd it : bool)
    (d : gmap string py_object) (o : Options E) :
  Options_ctor sp bd it d = Ok o ->
  accepted_jacobian (jacobian o) /\
  compatible (jacobian o) (linear_solver o) /\
  valid_preconditioner (preconditioner o) /\
  (preconditioner o = "BBDP" -> is_krylov (linear_solver o)).
Proof.
  intros Hctor.
  destruct (Options_ctor_inv _ _ _ _ _ Hctor) as (m & _ & Hbody).
  destruct (Options_body_result _ _ Hbody)
    as (_ & _ & _ & _ & Hc & [(Hk & Hp & _ & _) | (Hk & Hp & _)]).
  - split; [exact (compatible_accepted _ _ Hc)|]. auto.
  - split; [exact (compatible_accepted _ _ Hc)|].
    split; [exact Hc|]. rewrite Hp. split.
    + left. reflexivity.
    + discriminate.
Qed.

Lemma result_well_formed_witness :
  accepted_jacobian "banded" /\
  compatible "banded" "SUNLinSol_Band" /\
  valid_preconditioner "none" /\
  ("none" = "BBDP" -> is_krylov "SUNLinSol_Band").
Proof.
  apply (result_well_formed (E := python) false false false
           (with_kinds "banded" "SUNLinSol_Band" "BBDP" sample_options)
           (sample_members false true false
              "banded" "SUNLinSol_Band" "none")).
  reflexivity.
Defined.

(** X9. The flags of a record that the constructor returns are
    consistent: the sparse and the banded flag are never both set, and the
    iterative flag is set only together with the sparse flag. *)
Theorem flags_consistent {E : Extern} (sp bd it : bool)
    (d : gmap string py_object) (o : Options E) :
  Options_ctor sp bd it d = Ok o ->
  (using_sparse_matrix o && using_banded_matrix o = false) /\
  (using_iterative_solver o = true -> using_sparse_matrix o = true).
Proof.
  intros Hctor.
  destruct (Options_ctor_inv _ _ _ _ _ Hctor) as (m & _ & Hbody).
  destruct (Options_body_result _ _ Hbody)
    as (_ & _ & -> & -> & Hc & Hk).
  assert (~ is_krylov "SUNLinSol_Dense") as Hd by compute_done.
  assert (~ is_krylov "SUNLinSol_Band") as Hb by compute_done.
  destruct (compatible_cases _ _ Hc)
    as [(Hl & [Hj|Hj]) | [(Hj & _) | [(Hj & Hl) | ([Hj|Hj] & _)]]];
    rewrite Hj; (split; [reflexivity|]); try reflexivity;
    rewrite Hl in Hk; intros Hit;
    destruct Hk as [(Hk & _) | (_ & _ & Hit')];
    first [contradiction | congruence].
Qed.

Lemma flags_consistent_witness :
  (using_sparse_matrix
     (sample_members true false true
        "matrix-free" "SUNLinSol_SPTFQMR" "none") &&
   using_banded_matrix
     (sample_members true false true
        "matrix-free" "SUNLinSol_SPTFQMR" "none") = false) /\
  (using_iterative_solver
     (sample_members true false true
        "matrix-free" "SUNLinSol_SPTFQMR" "none") = true ->
   using_sparse_matrix
     (sample_members true false true
        "matrix-free" "SUNLinSol_SPTFQMR" "none") = true).
Proof.
  apply (flags_consistent (E := python) true true false
           (with_kinds "matrix-free" "SUNLinSol_SPTFQMR" "none"
              sample_options)
           (sample_members true false true
              "matrix-free" "SUNLinSol_SPTFQMR" "none")).
  reflexivity.
Defined.

(** X10. The flags of a record that the constructor returns tell the
    family of its direct solver: the banded flag means SUNLinSol_Band, no
    matrix flag means SUNLinSol_Dense, and the sparse flag without the
    iterative flag means SUNLinSol_KLU or SUNLinSol_cuSolverSp_batchQR. *)
Theorem flags_determine_direct_solver {E : Extern} (sp bd it : bool)
    (d : gmap string py_object) (o : Options E) :
  Options_ctor sp bd it d = Ok o ->
  (using_banded_matrix o = true -> linear_solver o = "SUNLinSol_Band") /\
  (using_sparse_matrix o = false -> using_banded_matrix o = false ->
   linear_solver o = "SUNLinSol_Dense") /\
  (using_sparse_matrix o = true -> using_iterative_solver o = false ->
   linear_solver o = "SUNLinSol_KLU" \/
   linear_solver o = "SUNLinSol_cuSolverSp_batchQR").
Proof.
  intros Hctor.
  destruct (Options_ctor_inv _ _ _ _ _ Hctor) as (m & _ & Hbody).
  destruct (Options_body_result _ _ Hbody)
    as (_ & _ & -> & -> & Hc & Hk).
  destruct (compatible_cases _ _ Hc)
    as [(Hl & [Hj|Hj]) | [(Hj & Hl) | [(Hj & Hl) | ([Hj|Hj] & Hkl)]]];
    rewrite Hj; simpl; repeat split; intros; try discriminate;
    try assumption;
    destruct Hk as [(_ & _ & _ & Hit) | (Hk & _)];
    first [congruence | contradiction].
Qed.

Lemma flags_determine_direct_solver_witness :
  Options_ctor (E := python) false false false
    (with_kinds "sparse" "SUNLinSol_cuSolverSp_batchQR" "none"
       sample_options) =
  Ok (sample_members true false false
        "sparse" "SUNLinSol_cuSolverSp_batchQR" "none") /\
  (false = true -> "SUNLinSol_cuSolverSp_batchQR" = "SUNLinSol_Band") /\
  (true = false -> false = false ->
   "SUNLinSol_cuSolverSp_batchQR" = "SUNLinSol_Dense") /\
  (true = true -> false = false ->
   "SUNLinSol_cuSolverSp_batchQR" = "SUNLinSol_KLU" \/
   "SUNLinSol_cuSolverSp_batchQR" = "SUNLinSol_cuSolverSp_batchQR").
Proof.
  split; [reflexivity|].
  apply (flags_determine_direct_solver (E := python) false false false
           (with_kinds "sparse" "SUNLinSol_cuSolverSp_batchQR" "none"
              sample_options)
           (sample_members true false false
              "sparse" "SUNLinSol_cuSolverSp_batchQR" "none")).
  reflexivity.
Defined.

(** X11. For a solver that is not a Krylov solver the preconditioner
    entry is not looked at: replacing it by any object that casts to a
    string gives the same result, or the same exception. *)
Theorem direct_solver_ignores_preconditioner {E : Extern} (sp bd it : bool)
    (d : gmap string py_object) (m : Options E) (v : py_object)
    (p : string) :
  init_members sp bd it d = Ok m ->
  ~ is_krylov (linear_solver m) ->
  cast_string v = Some p ->
  Options_ctor sp bd it (<["preconditioner" := v]> d) =
  Options_ctor sp bd it d.
Proof.
  intros Hinit Hk Hv. unfold Options_ctor.
  rewrite (init_members_insert_preconditioner _ _ _ _ _ _ _ Hinit Hv).
  rewrite Hinit. simpl.
  apply Options_body_direct_preconditioner. exact Hk.
Qed.

Lemma direct_solver_ignores_preconditioner_witness :
  Options_ctor (E := python) false false false
    (<["preconditioner" := PyStr "ILU"]> sample_options) =
  Options_ctor (E := python) false false false sample_options.
Proof.
  apply (direct_solver_ignores_preconditioner (E := python)
           false false false sample_options
           (sample_members false false false
              "sparse" "SUNLinSol_KLU" "BBDP")
           (PyStr "ILU") "ILU").
  - reflexivity.
  - compute_done.
  - reflexivity.
Defined.

(** ** What the messages say *)

(** X12. The message [what] of every domain error of the constructor
    shows the value that its check refused, after an opening double quote
    and up to the first NUL character of the value, and between double
    quotes when the value has no NUL: the first check (jacobian not
    accepted) shows the jacobian, the second check (pair outside the
    matrix) shows the jacobian and the linear solver, the third check
    shows the preconditioner. *)
Theorem domain_error_quotes_value {E : Extern} (sp bd it : bool)
    (d : gmap string py_object) (msg : string) :
  Options_ctor sp bd it d = Throw (domain_error msg) ->
  exists m w,
    init_members sp bd it d = Ok m /\
    what (domain_error msg) = Some w /\
    ((~ accepted_jacobian (jacobian m) /\
      names w (dquote +:+ c_str (jacobian m)) /\
      (has_nul (jacobian m) = false -> names w (quoted (jacobian m)))) \/
     (accepted_jacobian (jacobian m) /\
      ~ compatible (jacobian m) (linear_solver m) /\
      names w (quoted (jacobian m)) /\
      names w (dquote +:+ c_str (linear_solver m)) /\
      (has_nul (linear_solver m) = false ->
       names w (quoted (linear_solver m)))) \/
     (compatible (jacobian m) (linear_solver m) /\
      is_krylov (linear_solver m) /\
      ~ valid_preconditioner (preconditioner m) /\
      names w (dquote +:+ c_str (preconditioner m)) /\
      (has_nul (preconditioner m) = false ->
       names w (quoted (preconditioner m))))).
Proof.
  intros Hctor. unfold Options_ctor in Hctor.
  destruct (init_members sp bd it d) as [m|e] eqn:Hinit; simpl in Hctor.
  - exists m, (c_str msg). split; [reflexivity|]. split; [reflexivity|].
    destruct (Options_body_outcome m) as [Hj|Hj Hc|Hc Hk Hp|? ? ?|? ?];
      try discriminate; injection Hctor as <-.
    + left. split; [exact Hj|].
      rewrite c_str_msg_unknown_jacobian.
      destruct (has_nul (jacobian m)) eqn:Hn.
      * split; [find_name | discriminate].
      * rewrite (c_str_nul_free _ Hn).
        assert (names (msg_unknown_jacobian (jacobian m))
                  (quoted (jacobian m))) as Hq
          by (unfold msg_unknown_jacobian; find_name).
        split; [apply names_quoted_open, Hq | intros _; exact Hq].
    + right. left. split; [exact Hj|]. split; [exact Hc|].
      destruct (msg_incompatible_pair (jacobian m) (linear_solver m))
        as (head & tail & -> & Hh & Ht).
      rewrite (c_str_msg_pair _ _ _ _ Hh
                 (accepted_jacobian_nul_free _ Hj) Ht).
      destruct (has_nul (linear_solver m)) eqn:Hl.
      * split; [find_name|]. split; [find_name | discriminate].
      * rewrite (c_str_nul_free _ Hl).
        assert (names (msg_pair head (jacobian m) (linear_solver m) tail)
                  (quoted (linear_solver m))) as Hq
          by (unfold msg_pair; find_name).
        split; [unfold msg_pair; find_name|].
        split; [apply names_quoted_open, Hq | intros _; exact Hq].
    + right. right. split; [exact Hc|]. split; [exact Hk|].
      split; [exact Hp|].
      rewrite c_str_msg_unknown_preconditioner.
      destruct (has_nul (preconditioner m)) eqn:Hn.
      * split; [find_name | discriminate].
      * rewrite (c_str_nul_free _ Hn).
        assert (names (msg_unknown_preconditioner (preconditioner m))
                  (quoted (preconditioner m))) as Hq
          by (unfold msg_unknown_preconditioner; find_name).
        split; [apply names_quoted_open, Hq | intros _; exact Hq].
  - injection Hctor as ->.
    destruct (init_members_exceptions _ _ _ _ _ Hinit) as (k & _ & [H|H]);
      discriminate.
Qed.

Lemma domain_error_quotes_value_witness :
  exists m w,
    init_members (E := python) false false false
      (with_kinds "sparse" "SUNLinSol_SPGMR" "ILU" sample_options) = Ok m /\
    what (domain_error (msg_unknown_preconditioner "ILU")) = Some w /\
    ((~ accepted_jacobian (jacobian m) /\
      names w (dquote +:+ c_str (jacobian m)) /\
      (has_nul (jacobian m) = false -> names w (quoted (jacobian m)))) \/
     (accepted_jacobian (jacobian m) /\
      ~ compatible (jacobian m) (linear_solver m) /\
      names w (quoted (jacobian m)) /\
      names w (dquote +:+ c_str (linear_solver m)) /\
      (has_nul (linear_solver m) = false ->
       names w (quoted (linear_solver m)))) \/
     (compatible (jacobian m) (linear_solver m) /\
      is_krylov (linear_solver m) /\
      ~ valid_preconditioner (preconditioner m) /\
      names w (dquote +:+ c_str (preconditioner m)) /\
      (has_nul (preconditioner m) = false ->
       names w (quoted (preconditioner m))))).
Proof.
  apply (domain_error_quotes_value (E := python) false false false
           (with_kinds "sparse" "SUNLinSol_SPGMR" "ILU" sample_options)
           (msg_unknown_preconditioner "ILU")).
  reflexivity.
Defined.

(** X13. When the jacobian supplied is not an accepted kind and has no
    NUL character, the message [what] of the domain error lists each of
    the five accepted kinds between double quotes: the list of the message
    is the list of the check. When the jacobian has a NUL character, the
    message stops inside the quoted jacobian, before that list. *)
Theorem unknown_jacobian_message_lists_kinds {E : Extern} (sp bd it : bool)
    (d : gmap string py_object) (m : Options E) :
  init_members sp bd it d = Ok m ->
  ~ accepted_jacobian (jacobian m) ->
  exists msg w,
    Options_ctor sp bd it d = Throw (domain_error msg) /\
    what (domain_error msg) = Some w /\
    (has_nul (jacobian m) = false ->
     forall k, accepted_jacobian k -> names w (quoted k)) /\
    (has_nul (jacobian m) = true ->
     w = "Unknown jacobian type " +:+ dquote +:+ c_str (jacobian m)).
Proof.
  intros Hinit Hj.
  exists (msg_unknown_jacobian (jacobian m)),
    (c_str (msg_unknown_jacobian (jacobian m))).
  split.
  { rewrite (Options_ctor_init _ _ _ _ _ Hinit).
    pose proof (@compatible_accepted (jacobian m) (linear_solver m)).
    destruct (Options_body_outcome m); tauto. }
  split; [reflexivity|].
  rewrite c_str_msg_unknown_jacobian.
  destruct (has_nul (jacobian m)); split; try discriminate.
  - intros _. reflexivity.
  - intros _ k Hk. unfold accepted_jacobian, accepted_jacobians in Hk.
    rewrite list_elem_of_In in Hk. simpl in Hk.
    unfold msg_unknown_jacobian.
    repeat (destruct Hk as [<-|Hk]; [do 2 apply names_skip; find_name|]).
    contradiction.
Qed.

Lemma unknown_jacobian_message_lists_kinds_witness :
  exists msg w,
    Options_ctor (E := python) false false false
      (with_kinds "Dense" "SUNLinSol_Dense" "none" sample_options) =
    Throw (domain_error msg) /\
    what (domain_error msg) = Some w /\
    (has_nul "Dense" = false ->
     forall k, accepted_jacobian k -> names w (quoted k)) /\
    (has_nul "Dense" = true ->
     w = "Unknown jacobian type " +:+ dquote +:+ c_str "Dense").
Proof.
  apply (unknown_jacobian_message_lists_kinds (E := python)
           false false false
           (with_kinds "Dense" "SUNLinSol_Dense" "none" sample_options)
           (sample_members false false false
              "Dense" "SUNLinSol_Dense" "none")).
  - reflexivity.
  - compute_done.
Defined.

(** X14. When the preconditioner is refused and has no NUL character, the
    message [what] of the domain error lists both accepted values, "BBDP"
    and "none", between double quotes. When the preconditioner has a NUL
    character, the message stops inside the quoted preconditioner, before
    that list. *)
Theorem unknown_preconditioner_message_lists_values {E : Extern}
    (sp bd it : bool) (d : gmap string py_object) (m : Options E) :
  init_members sp bd it d = Ok m ->
  compatible (jacobian m) (linear_solver m) ->
  is_krylov (linear_solver m) ->
  ~ valid_preconditioner (preconditioner m) ->
  exists msg w,
    Options_ctor sp bd it d = Throw (domain_error msg) /\
    what (domain_error msg) = Some w /\
    (has_nul (preconditioner m) = false ->
     forall k, valid_preconditioner k -> names w (quoted k)) /\
    (has_nul (preconditioner m) = true ->
     w = "Unknown preconditioner " +:+ dquote +:+
         c_str (preconditioner m)).
Proof.
  intros Hinit Hc Hk Hp.
  exists (msg_unknown_preconditioner (preconditioner m)),
    (c_str (msg_unknown_preconditioner (preconditioner m))).
  split.
  { rewrite (Options_ctor_init _ _ _ _ _ Hinit).
    pose proof (compatible_accepted _ _ Hc).
    destruct (Options_body_outcome m); tauto. }
  split; [reflexivity|].
  rewrite c_str_msg_unknown_preconditioner.
  destruct (has_nul (preconditioner m)); split; try discriminate.
  - intros _. reflexivity.
  - intros _ k [-> | ->]; unfold msg_unknown_preconditioner;
      do 2 apply names_skip; find_name.
Qed.

Lemma unknown_preconditioner_message_lists_values_witness :
  exists msg w,
    Options_ctor (E := python) false false false
      (with_kinds "matrix-free" "SUNLinSol_SPBCGS" "bbdp" sample_options) =
    Throw (domain_error msg) /\
    what (domain_error msg) = Some w /\
    (has_nul "bbdp" = false ->
     forall k, valid_preconditioner k -> names w (quoted k)) /\
    (has_nul "bbdp" = true ->
     w = "Unknown preconditioner " +:+ dquote +:+ c_str "bbdp").
Proof.
  apply (unknown_preconditioner_message_lists_values (E := python)
           false false false
           (with_kinds "matrix-free" "SUNLinSol_SPBCGS" "bbdp"
              sample_options)
           (sample_members false false false
              "matrix-free" "SUNLinSol_SPBCGS" "bbdp")).
  - reflexivity.
  - compute_done.
  - compute_done.
  - compute_done.
Defined.

(** X15. When the jacobian is an accepted kind other than "dense" and the
    linear solver is refused and has no NUL character, the message [what]
    of the domain error names a linear solver that the constructor accepts
    for that jacobian. *)
Theorem incompatible_message_suggests_solver {E : Extern} (sp bd it : bool)
    (d : gmap string py_object) (m : Options E) :
  init_members sp bd it d = Ok m ->
  accepted_jacobian (jacobian m) ->
  jacobian m <> "dense" ->
  ~ compatible (jacobian m) (linear_solver m) ->
  has_nul (linear_solver m) = false ->
  exists msg w l',
    Options_ctor sp bd it d = Throw (domain_error msg) /\
    what (domain_error msg) = Some w /\
    names w l' /\ compatible (jacobian m) l'.
Proof.
  intros Hinit Hj Hd Hc Hl.
  assert (Options_ctor sp bd it d =
          Throw (domain_error
                   (msg_incompatible (jacobian m) (linear_solver m))))
    as Hthrow.
  { rewrite (Options_ctor_init _ _ _ _ _ Hinit).
    destruct (Options_body_outcome m); tauto. }
  pose proof (what_msg_incompatible_whole _ _
                (accepted_jacobian_nul_free _ Hj) Hl) as Hwhat.
  exists (msg_incompatible (jacobian m) (linear_solver m)),
    (msg_incompatible (jacobian m) (linear_solver m)).
  unfold accepted_jacobian, accepted_jacobians in Hj.
  rewrite list_elem_of_In in Hj. simpl in Hj.
  destruct Hj as [Hj|[Hj|[Hj|[Hj|[Hj|[]]]]]]; symmetry in Hj;
    try contradiction; rewrite Hj in Hthrow, Hwhat |- *.
  - exists "SUNLinSol_KLU". split; [exact Hthrow|]. split; [exact Hwhat|].
    split; [|compute_done].
    unfold msg_incompatible, msg_sparse, msg_pair. simpl. find_name.
  - exists "SUNLinSol_Band". split; [exact Hthrow|]. split; [exact Hwhat|].
    split; [|compute_done].
    unfold msg_incompatible, msg_banded, msg_pair. simpl. find_name.
  - exists "SUNLinSol_Dense". split; [exact Hthrow|]. split; [exact Hwhat|].
    split; [|compute_done].
    unfold msg_incompatible, msg_none, msg_pair. simpl. find_name.
  - exists "SUNLinSol_SPGMR". split; [exact Hthrow|]. split; [exact Hwhat|].
    split; [|compute_done].
    unfold msg_incompatible, msg_matrix_free, msg_pair. simpl. find_name.
Qed.

Lemma incompatible_message_suggests_solver_witness :
  exists msg w l',
    Options_ctor (E := python) false false false
      (with_kinds "none" "SUNLinSol_KLU" "none" sample_options) =
    Throw (domain_error msg) /\
    what (domain_error msg) = Some w /\
    names w l' /\ compatible "none" l'.
Proof.
  apply (incompatible_message_suggests_solver (E := python)
           false false false
           (with_kinds "none" "SUNLinSol_KLU" "none" sample_options)
           (sample_members false false false
              "none" "SUNLinSol_KLU" "none")).
  - reflexivity.
  - compute_done.
  - discriminate.
  - compute_done.
  - reflexivity.
Defined.
